(** * The API client of the pest-control field-service app (apiService.js)

    A shallow embedding of the request gateway of the mobile client: the
    session token, the [request] transport wrapper, token verification,
    [login], the list operations with their response-shape probing, the
    station-logging fallback chain and the two name helpers.

    JavaScript values are a tree of JSON-like data, the module-level token,
    the AsyncStorage entry and the network are an explicit world threaded
    through a state-and-exception monad.  [console.*] calls have no effect
    on results and are left out.  The model describes the client after the
    module-load token loader has settled. *)

From Stdlib Require Import String Ascii List Bool ZArith NArith Lia.
From Stdlib Require Import SpecFloat DecimalString.
Import ListNotations.
Open Scope list_scope.
Open Scope string_scope.

Set Implicit Arguments.
Set Warnings "-register-all".

(** ** JavaScript values *)

(** The values the client handles: what [JSON.parse] produces, plus
    [undefined].  Numbers are IEEE 754 doubles.  Objects keep their
    properties in insertion order; a property read takes the first binding
    of the name. *)
Inductive JsVal : Type :=
| JUndefined
| JNull
| JBool (b : bool)
| JNum (x : spec_float)
| JStr (s : string)
| JArr (items : list JsVal)
| JObj (fields : list (string * JsVal)).

(** An integral number such as an HTTP status or an array length. *)
Definition num_of_N (n : N) : spec_float :=
  match n with
  | N0 => S754_zero false
  | Npos p => S754_finite false p 0%Z
  end.

(** Decimal digits of a non-negative integer, as a template literal prints
    an integral number below 10^21. *)
Definition decimal (n : N) : string := NilZero.string_of_uint (N.to_uint n).

(** ToBoolean: [if (v)], [!v], [v || w], [v && w]. *)
Definition truthy (v : JsVal) : bool :=
  match v with
  | JUndefined | JNull => false
  | JBool b => b
  | JNum (S754_zero _) | JNum S754_nan => false
  | JNum _ => true
  | JStr s => negb (s =? "")
  | JArr _ | JObj _ => true
  end.

(** [v === null || v === undefined]: the values [??] and [?.] skip and on
    which a property read raises a TypeError. *)
Definition nullish (v : JsVal) : bool :=
  match v with
  | JUndefined | JNull => true
  | _ => false
  end.

(** [Array.isArray(v)]. *)
Definition isArray (v : JsVal) : bool :=
  match v with
  | JArr _ => true
  | _ => false
  end.

(** [typeof v === 'string']. *)
Definition isString (v : JsVal) : bool :=
  match v with
  | JStr _ => true
  | _ => false
  end.

(** [v === false], [v === true], [v === "literal"]. *)
Definition is_false (v : JsVal) : bool :=
  match v with
  | JBool false => true
  | _ => false
  end.

Definition is_true (v : JsVal) : bool :=
  match v with
  | JBool true => true
  | _ => false
  end.

Definition is_str (v : JsVal) (lit : string) : bool :=
  match v with
  | JStr s => s =? lit
  | _ => false
  end.

(** [a || b] and [a ?? b] on values. *)
Definition js_or (a b : JsVal) : JsVal := if truthy a then a else b.
Definition js_coalesce (a b : JsVal) : JsVal := if nullish a then b else a.

Fixpoint assoc (V : Type) (k : string) (fs : list (string * V)) : option V :=
  match fs with
  | [] => None
  | (k', v) :: rest => if k =? k' then Some v else assoc k rest
  end.

(** The elements of an array value ([[]] for anything else). *)
Definition elements (v : JsVal) : list JsVal :=
  match v with
  | JArr xs => xs
  | _ => []
  end.

(** [v.k] for a value [v] that is neither [null] nor [undefined], for the
    property names the client reads (data properties and [length]; none of
    them is a prototype method). *)
Definition prop (v : JsVal) (k : string) : JsVal :=
  match v with
  | JObj fs => match assoc k fs with Some x => x | None => JUndefined end
  | JArr xs =>
      if k =? "length" then JNum (num_of_N (N.of_nat (List.length xs)))
      else JUndefined
  | JStr s =>
      if k =? "length" then JNum (num_of_N (N.of_nat (String.length s)))
      else JUndefined
  | _ => JUndefined
  end.

(** [v?.k]. *)
Definition opt_prop (v : JsVal) (k : string) : JsVal :=
  if nullish v then JUndefined else prop v k.

(** [{...o, k: v}]: an existing property keeps its place and takes the new
    value, a new one goes last. *)
Fixpoint obj_put (k : string) (v : JsVal) (fs : list (string * JsVal))
  : list (string * JsVal) :=
  match fs with
  | [] => [(k, v)]
  | (k', v') :: rest =>
      if k =? k' then (k, v) :: rest else (k', v') :: obj_put k v rest
  end.

(** ** Exceptions, the world and the monad *)

(** A computation either returns or raises; a raised error is kept by its
    [message]. *)
Inductive Exc (A : Type) : Type :=
| Ok (a : A)
| Throw (message : string).
Arguments Throw {A} message.

Record HttpRequest : Type := {
  rq_method : string;
  rq_url : string;
  rq_headers : list (string * string);
  (** the value handed to [JSON.stringify], when a body is attached *)
  rq_body : option JsVal
}.

(** What reading the body of a response gives. *)
Inductive BodyRead : Type :=
| BodyText (text : string)
| BodyFails (message : string).

(** What one [fetch] call gives: a response with its status and body, or a
    rejection (DNS, timeout, connection reset). *)
Inductive FetchOutcome : Type :=
| Responds (status : N) (body : BodyRead)
| Rejects (message : string).

Record World : Type := {
  (** the module-level [authToken] *)
  authToken : JsVal;
  (** the AsyncStorage entry under the key 'authToken' *)
  disk : option JsVal;
  (** for each coming AsyncStorage call, whether it rejects
      (none left: the call succeeds) *)
  disk_faults : list bool;
  (** the outcomes of the coming [fetch] calls, in order
      (none left: the network is down) *)
  net : list FetchOutcome;
  (** every request handed to [fetch] so far, oldest first *)
  sent : list HttpRequest
}.

Definition M (A : Type) : Type := World -> Exc A * World.

Definition ret {A} (a : A) : M A := fun w => (Ok a, w).

Definition throw {A} (message : string) : M A := fun w => (Throw message, w).

Definition bind {A B} (m : M A) (k : A -> M B) : M B :=
  fun w =>
    match m w with
    | (Ok a, w') => k a w'
    | (Throw e, w') => (Throw e, w')
    end.

(** [try { m } catch (err) { handler(err.message) }]. *)
Definition try_catch {A} (m : M A) (handler : string -> M A) : M A :=
  fun w =>
    match m w with
    | (Ok a, w') => (Ok a, w')
    | (Throw e, w') => handler e w'
    end.

Notation "x <- m ;; k" := (bind m (fun x => k))
  (at level 61, m at next level, right associativity).
Notation "m ;;; k" := (bind m (fun _ => k))
  (at level 61, right associativity).

(** ** The host runtime

    Built-ins and the one imported helper whose code is outside this module. *)
Class Runtime : Type := {
  (** [JSON.parse(text)]: the value, or the message of the SyntaxError. *)
  JSON_parse : string -> JsVal + string;
  (** Number::toString, used by [String(x)] and template literals. *)
  Number_toString : spec_float -> string;
  (** [new URLSearchParams(params).toString()]. *)
  URLSearchParams_toString : JsVal -> string;
  (** [normalizeAppointment] from ./normalizeAppointment: the normalized
      appointment, or the message of the error it raises. *)
  normalizeAppointment : JsVal -> JsVal + string
}.

Section Client.
Context {RT : Runtime}.

(** [String(v)] / [`${v}`]. *)
Fixpoint ToString (v : JsVal) : string :=
  match v with
  | JUndefined => "undefined"
  | JNull => "null"
  | JBool true => "true"
  | JBool false => "false"
  | JNum x => Number_toString x
  | JStr s => s
  | JArr xs =>
      (fix join (l : list JsVal) : string :=
         match l with
         | [] => ""
         | [x] => if nullish x then "" else ToString x
         | x :: rest =>
             (if nullish x then "" else ToString x) ++ "," ++ join rest
         end) xs
  | JObj _ => "[object Object]"
  end.

(** [v.k] where [v] may be [null] or [undefined]. *)
Definition member (v : JsVal) (k : string) : M JsVal :=
  if nullish v
  then throw ("Cannot read property '" ++ k ++ "' of " ++ ToString v)
  else ret (prop v k).

Definition lift {A} (r : A + string) : M A :=
  match r with
  | inl a => ret a
  | inr e => throw e
  end.

(** [items.map(f)] for a callback that may raise. *)
Fixpoint mapM {A B} (f : A -> M B) (l : list A) : M (list B) :=
  match l with
  | [] => ret []
  | x :: rest => y <- f x ;; ys <- mapM f rest ;; ret (y :: ys)
  end.

(** ** Token management *)

Definition API_BASE_URL : string :=
  "https://field-inspections-backend-production.up.railway.app/api".

(** One AsyncStorage call on the 'authToken' entry: it either rejects and
    leaves the entry as it was, or stores [entry]. *)
Definition storage_call (entry : option JsVal) : M unit :=
  fun w =>
    match disk_faults w with
    | true :: later =>
        (Throw "AsyncStorage failure",
         {| authToken := authToken w; disk := disk w; disk_faults := later;
            net := net w; sent := sent w |})
    | _ =>
        (Ok tt,
         {| authToken := authToken w; disk := entry;
            disk_faults := tl (disk_faults w);
            net := net w; sent := sent w |})
    end.

Definition AsyncStorage_setItem (value : JsVal) : M unit :=
  storage_call (Some value).
Definition AsyncStorage_removeItem : M unit := storage_call None.

(** [AsyncStorage.getItem] on the entry: the stored value, or [null]. *)
Definition AsyncStorage_getItem : M JsVal :=
  fun w =>
    match disk_faults w with
    | true :: later =>
        (Throw "AsyncStorage failure",
         {| authToken := authToken w; disk := disk w; disk_faults := later;
            net := net w; sent := sent w |})
    | _ =>
        (Ok (match disk w with Some value => value | None => JNull end),
         {| authToken := authToken w; disk := disk w;
            disk_faults := tl (disk_faults w);
            net := net w; sent := sent w |})
    end.

Definition assign_authToken (token : JsVal) : M unit :=
  fun w =>
    (Ok tt,
     {| authToken := token; disk := disk w; disk_faults := disk_faults w;
        net := net w; sent := sent w |}).

(** The loader that runs when the module loads. *)
Definition loadStoredToken : M unit :=
  try_catch
    (token <- AsyncStorage_getItem ;;
     if truthy token then assign_authToken token else ret tt)
    (fun _ => ret tt).

Definition setAuthToken (token : JsVal) : M unit :=
  assign_authToken token ;;;
  try_catch
    (if truthy token then AsyncStorage_setItem token
     else AsyncStorage_removeItem)
    (fun _ => ret tt).

Definition clearAuthToken : M unit :=
  assign_authToken JNull ;;;
  try_catch AsyncStorage_removeItem (fun _ => ret tt).

Definition getCurrentToken : M JsVal := fun w => (Ok (authToken w), w).

(** ** The network *)

(** [fetch(url, options)]: the request goes out and the next outcome of the
    network comes back. *)
Definition fetch (rq : HttpRequest) : M (N * BodyRead) :=
  fun w =>
    let w' := {| authToken := authToken w; disk := disk w;
                 disk_faults := disk_faults w;
                 net := tl (net w); sent := (sent w ++ [rq])%list |} in
    match net w with
    | Responds status body :: _ => (Ok (status, body), w')
    | Rejects message :: _ => (Throw message, w')
    | [] => (Throw "Network request failed", w')
    end.

(** [res.ok]: the status is in the range 200-299. *)
Definition res_ok (status : N) : bool :=
  ((200 <=? status) && (status <=? 299))%N.

(** [await res.text()]. *)
Definition res_text (body : BodyRead) : M string :=
  match body with
  | BodyText text => ret text
  | BodyFails message => throw message
  end.

(** [await response.json()]. *)
Definition res_json (body : BodyRead) : M JsVal :=
  text <- res_text body ;; lift (JSON_parse text).

Definition verifyTokenWithBackend (token : JsVal) : M JsVal :=
  try_catch
    (response <- fetch {| rq_method := "POST";
                          rq_url := API_BASE_URL ++ "/verify-token";
                          rq_headers := [("Content-Type", "application/json")];
                          rq_body := Some (JObj [("token", token)]) |} ;;
     result <- res_json (snd response) ;;
     ret result)
    (fun message =>
       ret (JObj [("success", JBool false); ("error", JStr message)])).

(** The headers [request] builds. *)
Definition request_headers (token : JsVal) : list (string * string) :=
  ("Content-Type", "application/json")
  :: (if truthy token then [("Authorization", "Bearer " ++ ToString token)]
      else []).

(** The generic request wrapper. *)
Definition request (method endpoint : string) (body : JsVal) : M JsVal :=
  token <- getCurrentToken ;;
  let options :=
    {| rq_method := method;
       rq_url := API_BASE_URL ++ endpoint;
       rq_headers := request_headers token;
       rq_body := if truthy body then Some body else None |} in
  try_catch
    (res <- fetch options ;;
     text <- res_text (snd res) ;;
     json <- try_catch
               (if negb (text =? "") then lift (JSON_parse text)
                else ret JNull)
               (fun _ => ret JNull) ;;
     if negb (res_ok (fst res)) then
       ret (JObj [("success", JBool false);
                  ("error",
                   js_or (opt_prop json "error")
                     (JStr ("Request failed with status "
                            ++ decimal (fst res))));
                  ("status", JNum (num_of_N (fst res)));
                  ("data", json)])
     else
       ret (js_or json (JObj [("success", JBool true)])))
    (fun message =>
       ret (JObj [("success", JBool false);
                  ("error", JStr message);
                  ("networkError", JBool true)])).

(** What a caller may pass as [body]: a JSON-like value, or a truthy
    value [JSON.stringify] raises on (an object that refers to itself, a
    BigInt), given by the message of the error raised. *)
Inductive Body : Type :=
| Serializable (v : JsVal)
| Unserializable (message : string).

(** [request] on any body.  [options.body = JSON.stringify(body)] runs
    after the headers are built and before the [try] opens, so what it
    raises reaches the caller and [fetch] is not called. *)
Definition request_any (method endpoint : string) (body : Body) : M JsVal :=
  match body with
  | Serializable v => request method endpoint v
  | Unserializable message =>
      token <- getCurrentToken ;;
      let headers := request_headers token in
      throw message
  end.

(** ** Login *)

(** The last part of [login], reached with a [result] that has already
    been read from: the answer by role. *)
Definition login_by_role (result : JsVal) : JsVal :=
  if is_str (prop result "role") "admin" then
    JObj [("success", JBool true); ("role", JStr "admin");
          ("token", prop result "token")]
  else if is_str (prop result "role") "tech"
          && truthy (prop result "technician") then
    JObj [("success", JBool true); ("role", JStr "tech");
          ("token", prop result "token");
          ("technician", prop result "technician")]
  else if is_str (prop result "role") "customer"
          && truthy (prop result "customer") then
    JObj [("success", JBool true); ("role", JStr "customer");
          ("token", prop result "token");
          ("customer", prop result "customer")]
  else
    JObj [("success", JBool false); ("error", JStr "Invalid credentials")].

Definition token_validation_failed : JsVal :=
  JObj [("success", JBool false);
        ("error", JStr "Token validation failed. Please try again.")].

(** The block of [login] that stores and tests a fresh token; [Some v] is
    its early [return v]. *)
Definition login_check_token (token : JsVal) : M (option JsVal) :=
  if truthy token then
    setAuthToken token ;;;
    currentToken <- getCurrentToken ;;
    if truthy currentToken then
      verification <- verifyTokenWithBackend currentToken ;;
      verified <- member verification "success" ;;
      if negb (truthy verified) then
        clearAuthToken ;;; ret (Some token_validation_failed)
      else ret None
    else ret None
  else ret None.

Definition login (email password : JsVal) : M JsVal :=
  result <- request "POST" "/login"
              (JObj [("email", email); ("password", password)]) ;;
  if negb (truthy result) then ret result
  else
    success <- member result "success" ;;
    if negb (truthy success) then ret result
    else
      token <- member result "token" ;;
      early <- login_check_token token ;;
      match early with
      | Some failure => ret failure
      | None => ret (login_by_role result)
      end.

(** ** List operations *)

(** The callback of [customersArray.map] in [getCustomers]. *)
Definition formatCustomer (c : JsVal) : M JsVal :=
  customerId <- member c "customerId" ;;
  ret (JObj
    [("customerId",
      JStr (ToString
        (js_coalesce
           (js_coalesce (js_coalesce customerId (prop c "id"))
              (prop c "customer_id"))
           (JStr ""))));
     ("customerName",
      js_coalesce
        (js_coalesce (js_coalesce (prop c "customerName") (prop c "name"))
           (prop c "customer_name"))
        (JStr "Unknown Customer"));
     ("email", js_coalesce (prop c "email") (JStr ""));
     ("address", js_coalesce (prop c "address") (JStr ""));
     ("telephone", js_coalesce (prop c "telephone") (JStr ""));
     ("complianceValidUntil",
      js_coalesce
        (js_coalesce (prop c "complianceValidUntil")
           (prop c "compliance_valid_until"))
        JNull);
     ("maps", if isArray (prop c "maps") then prop c "maps" else JArr [])]).

(** The array [getCustomers] picks out of the response. *)
Definition customersArray (res : JsVal) : JsVal :=
  if isArray res then res
  else if truthy res && isArray (prop res "data") then prop res "data"
  else if truthy res && isArray (prop res "customers")
       then prop res "customers"
  else if truthy res && truthy (prop res "success")
          && truthy (prop res "data") && isArray (prop res "data")
       then prop res "data"
  else JArr [].

Definition getCustomers : M JsVal :=
  res <- request "GET" "/customers" JNull ;;
  if truthy res && is_false (prop res "success") then ret (JArr [])
  else
    formattedCustomers <- mapM formatCustomer (elements (customersArray res)) ;;
    ret (JArr formattedCustomers).

Definition getTechnicians : M JsVal :=
  res <- request "GET" "/admin/technicians" JNull ;;
  if negb (truthy res) then ret (JArr [])
  else if isArray res then ret res
  else if truthy (prop res "technicians") && isArray (prop res "technicians")
       then ret (prop res "technicians")
  else if truthy (prop res "success") && isArray (prop res "data")
       then ret (prop res "data")
  else if is_false (prop res "success") then ret (JArr [])
  else ret (JArr []).

(** The array [getAppointments] picks out of the response. *)
Definition appointmentsArray (res : JsVal) : JsVal :=
  if isArray res then res
  else if truthy res && isArray (prop res "appointments")
       then prop res "appointments"
  else if truthy res && truthy (prop res "success")
          && isArray (prop res "data")
       then prop res "data"
  else JArr [].

Definition getAppointments (params : JsVal) : M JsVal :=
  let params := match params with JUndefined => JObj [] | _ => params end in
  let query := URLSearchParams_toString params in
  let endpoint :=
    if negb (query =? "") then "/appointments?" ++ query
    else "/appointments" in
  res <- request "GET" endpoint JNull ;;
  normalized <- mapM (fun a => lift (normalizeAppointment a))
                  (elements (appointmentsArray res)) ;;
  ret (JArr normalized).

Definition getBaitTypes : M JsVal :=
  try_catch
    (res <- request "GET" "/materials/bait-types" JNull ;;
     if is_true (opt_prop res "success") && isArray (prop res "baitTypes")
     then ret (prop res "baitTypes")
     else if isArray res then ret res
     else if isArray (opt_prop res "baitTypes") then ret (prop res "baitTypes")
     else if is_true (opt_prop res "success") && isArray (prop res "data")
     then ret (prop res "data")
     else if is_true (opt_prop res "success") && isArray (prop res "types")
     then ret (prop res "types")
     else ret (JArr []))
    (fun _ => ret (JArr [])).

Definition getChemicals : M JsVal :=
  res <- request "GET" "/materials/chemicals" JNull ;;
  if negb (truthy res) then ret (JArr [])
  else if isArray res then ret res
  else if truthy (prop res "chemicals") && isArray (prop res "chemicals")
       then ret (prop res "chemicals")
  else if truthy (prop res "success") && isArray (prop res "data")
       then ret (prop res "data")
  else if is_false (prop res "success") then ret (JArr [])
  else ret (JArr []).

(** The callback of [.map] in the two name helpers. *)
Definition item_name (item : JsVal) : M JsVal :=
  if isString item then ret item
  else name <- member item "name" ;; ret (js_or name item).

(** The body shared by [getBaitTypeNames] and [getChemicalNames], for the
    list operation [getList] and the array field [field] they read. *)
Definition names_of (getList : M JsVal) (field : string) : M JsVal :=
  try_catch
    (result <- getList ;;
     if truthy (opt_prop result "success") && isArray (prop result field)
     then
       names <- mapM item_name (elements (prop result field)) ;;
       ret (JArr names)
     else ret (JArr []))
    (fun _ => ret (JArr [])).

Definition getBaitTypeNames : M JsVal := names_of getBaitTypes "types".
Definition getChemicalNames : M JsVal := names_of getChemicals "chemicals".

(** ** Station logging *)

Definition stationData (data : JsVal) : list (string * JsVal) :=
  [("timestamp", prop data "timestamp");
   ("customerId", prop data "customerId");
   ("customerName", js_or (prop data "customerName") (JStr ""));
   ("stationId", prop data "stationId");
   ("stationType", JStr "BS");
   ("consumption", js_or (prop data "consumption") (JStr ""));
   ("baitType", js_or (prop data "baitType") (JStr ""));
   ("condition", js_or (prop data "condition") (JStr ""));
   ("access", js_or (prop data "access") (JStr ""));
   ("technicianId", prop data "technicianId");
   ("technicianName", js_or (prop data "technicianName") (JStr ""));
   ("appointmentId", js_or (prop data "appointmentId") (JStr ""));
   ("visitId", prop data "visitId");
   ("isVisitSummary", JBool false)].

(** [{...stationData, action: 'station-log', serviceType: 'myocide'}]. *)
Definition fallbackData (station : list (string * JsVal)) : JsVal :=
  JObj (obj_put "serviceType" (JStr "myocide")
          (obj_put "action" (JStr "station-log") station)).

(** One of the first two attempts: [Some result] is its [return result]. *)
Definition try_endpoint (endpoint : string) (payload : JsVal)
  : M (option JsVal) :=
  try_catch
    (result <- request "POST" endpoint payload ;;
     if truthy (opt_prop result "success") then ret (Some result)
     else ret None)
    (fun _ => ret None).

Definition logBaitStation (data : JsVal) : M JsVal :=
  _ <- member data "timestamp" ;;
  let station := stationData data in
  first <- try_endpoint "/station-logs" (JObj station) ;;
  match first with
  | Some result => ret result
  | None =>
      second <- try_endpoint "/log-station" (JObj station) ;;
      match second with
      | Some result => ret result
      | None =>
          try_catch
            (result <- request "POST" "/log" (fallbackData station) ;;
             ret result)
            (fun _ =>
               ret (JObj [("success", JBool false);
                          ("error",
                           JStr "No endpoint available to save station data")]))
      end
  end.

End Client.

(** ** More of the client

    The remaining operations of the module that probe a response, guard an
    identifier, build a payload or chain endpoints. *)

(** [v === undefined]. *)
Definition is_undefined (v : JsVal) : bool :=
  match v with
  | JUndefined => true
  | _ => false
  end.

(** [typeof v === 'object']: objects, arrays and [null]. *)
Definition typeof_object (v : JsVal) : bool :=
  match v with
  | JNull | JArr _ | JObj _ => true
  | _ => false
  end.

(** [delete o.k]. *)
Fixpoint obj_remove (k : string) (fs : list (string * JsVal))
  : list (string * JsVal) :=
  match fs with
  | [] => []
  | (k', v) :: rest =>
      if k =? k' then obj_remove k rest else (k', v) :: obj_remove k rest
  end.

(** The array index a property key stands for: the key is the decimal
    print of an integer from 0 to 2^32 - 2. *)
Definition array_index (k : string) : option N :=
  match NilZero.uint_of_string k with
  | Some digits =>
      let n := N.of_uint digits in
      if (decimal n =? k) && (n <=? 4294967294)%N then Some n else None
  | None => None
  end.

(** The own keys of an object are listed with the array indices first, in
    ascending order, and the other keys after them in the order of their
    creation: [k] is listed before [k'] whichever was created first. *)
Definition index_before (k k' : string) : bool :=
  match array_index k, array_index k' with
  | Some i, Some j => (i <? j)%N
  | Some _, None => true
  | None, _ => false
  end.

(** Defining the property [k] of an object: a property it has keeps its
    place and takes the value, a new one takes its place in the listing. *)
Fixpoint obj_define (k : string) (v : JsVal) (fs : list (string * JsVal))
  : list (string * JsVal) :=
  match fs with
  | [] => [(k, v)]
  | (k', v') :: rest =>
      if k =? k' then (k, v) :: rest
      else if index_before k k' then (k, v) :: fs
      else (k', v') :: obj_define k v rest
  end.

(** The own properties of an object as [prop] reads them: each key once,
    with its first binding. *)
Fixpoint own_entries (seen : list string) (fs : list (string * JsVal))
  : list (string * JsVal) :=
  match fs with
  | [] => []
  | (k, v) :: rest =>
      if existsb (String.eqb k) seen then own_entries seen rest
      else (k, v) :: own_entries (k :: seen) rest
  end.

(** [{...base, ...extra}]: the own properties of [extra] defined one by
    one on a copy of [base]. *)
Definition obj_merge (base extra : list (string * JsVal))
  : list (string * JsVal) :=
  fold_left (fun acc kv => obj_define (fst kv) (snd kv) acc)
    (own_entries [] extra) base.

(** The index-named properties of an array, as a spread copies them. *)
Fixpoint array_entries (from : N) (items : list JsVal)
  : list (string * JsVal) :=
  match items with
  | [] => []
  | x :: rest => (decimal from, x) :: array_entries (N.succ from) rest
  end.

(** [text.startsWith(needle)] and [text.includes(needle)]. *)
Fixpoint starts_with (needle text : string) : bool :=
  match needle, text with
  | EmptyString, _ => true
  | String a needle', String b text' =>
      Ascii.eqb a b && starts_with needle' text'
  | String _ _, EmptyString => false
  end.

Fixpoint includes (needle text : string) : bool :=
  starts_with needle text
  || match text with
     | EmptyString => false
     | String _ text' => includes needle text'
     end.

Definition zero : JsVal := JNum (S754_zero false).

Section ClientContinued.
Context {RT : Runtime}.

(** [items.filter(keep)]. *)
Definition js_filter (keep : JsVal -> bool) (items : list JsVal)
  : list JsVal :=
  filter keep items.

(** *** Request counts *)

(** [getTotalRequestsToday].  Its fallback names
    [getTodayCustomerRequestsCount] as a free identifier; the module binds
    no such name (it is a property of [apiService]), so evaluating it raises
    a ReferenceError, whose message for a name is [unbound name]. *)
Definition getTotalRequestsToday (unbound : string -> string) : M JsVal :=
  try_catch
    (result <- request "GET" "/customer-requests/today-total-count" JNull ;;
     if truthy (opt_prop result "success") then ret result
     else
       pendingResult <- throw (unbound "getTodayCustomerRequestsCount") ;;
       ret pendingResult)
    (fun message =>
       ret (JObj [("success", JBool false); ("count", zero);
                  ("error", JStr message)])).

Definition getTotalRequestsCreatedToday (unbound : string -> string)
  : M JsVal :=
  try_catch
    (getTotalRequestsToday unbound)
    (fun message =>
       ret (JObj [("success", JBool false); ("count", zero);
                  ("error", JStr message)])).

(** *** Customers *)

Definition getCustomerStats : M JsVal :=
  res <- request "GET" "/customers/stats" JNull ;;
  if negb (truthy res) || is_false (prop res "success") then
    ret (JObj [("stats", JArr [])])
  else if truthy (prop res "stats") && isArray (prop res "stats") then ret res
  else ret (JObj [("stats", JArr [])]).

Definition getCustomerVisits (customerId : JsVal) : M JsVal :=
  if negb (truthy customerId) then ret (JArr [])
  else
    res <- request "GET"
             ("/appointments/customer/" ++ ToString customerId) JNull ;;
    if negb (truthy res) || negb (is_true (prop res "success")) then
      ret (JArr [])
    else ret (if isArray (prop res "visits") then prop res "visits"
              else JArr []).

Definition getCustomerActualVisits (customerId : JsVal) : M JsVal :=
  if negb (truthy customerId) then ret (JArr [])
  else
    try_catch
      (res <- request "GET"
                ("/visits/customer/" ++ ToString customerId) JNull ;;
       if negb (truthy res) || negb (is_true (prop res "success")) then
         ret (JArr [])
       else ret (if isArray (prop res "visits") then prop res "visits"
                 else JArr []))
      (fun _ => ret (JArr [])).

Definition getAppointmentsForCustomer (customerId : JsVal) : M JsVal :=
  if negb (truthy customerId) then ret (JArr [])
  else
    try_catch
      (response <- request "GET"
                     ("/appointments?customerId=" ++ ToString customerId)
                     JNull ;;
       if isArray response then ret response
       else if truthy (opt_prop response "appointments")
       then ret (prop response "appointments")
       else if truthy (opt_prop response "success")
               && isArray (prop response "data")
       then ret (prop response "data")
       else ret (JArr []))
      (fun _ => ret (JArr [])).

Definition no_revenue : JsVal :=
  JObj [("total_revenue", zero); ("appointment_count", zero)].

Definition getRevenueByCustomer (customerId : JsVal) : M JsVal :=
  if negb (truthy customerId) then ret no_revenue
  else
    res <- request "GET"
             ("/statistics/revenue/customer/" ++ ToString customerId) JNull ;;
    if negb (truthy res) || is_false (prop res "success") then ret no_revenue
    else ret (js_or (prop res "data") no_revenue).

Definition getCustomerDashboard : M JsVal :=
  let failed (error : JsVal) :=
    JObj [("success", JBool false); ("error", error);
          ("customer", JNull); ("nextAppointment", JNull);
          ("upcomingAppointments", JArr [])] in
  try_catch
    (result <- request "GET" "/customer/dashboard" JNull ;;
     if truthy (opt_prop result "success") then ret result
     else ret (failed (js_or (opt_prop result "error")
                         (JStr "Failed to load dashboard"))))
    (fun message => ret (failed (JStr message))).

(** *** Visits *)

Definition getVisitByAppointmentId (appointmentId : JsVal) : M JsVal :=
  if negb (truthy appointmentId) then
    ret (JObj [("success", JBool false); ("visitId", JNull)])
  else request "GET" ("/visits/by-appointment/" ++ ToString appointmentId)
         JNull.

(** [getVisitIdByAppointmentId]: a [fetch] of its own, with no options. *)
Definition getVisitIdByAppointmentId (appointmentId : JsVal) : M JsVal :=
  try_catch
    (response <- fetch {| rq_method := "GET";
                          rq_url := API_BASE_URL ++ "/visits/by-appointment/"
                                    ++ ToString appointmentId;
                          rq_headers := [];
                          rq_body := None |} ;;
     data <- res_json (snd response) ;;
     success <- member data "success" ;;
     if truthy success && truthy (prop data "visitId")
     then ret (prop data "visitId")
     else ret JNull)
    (fun _ => ret JNull).

Definition service_log_not_found : JsVal :=
  JObj [("success", JBool false); ("error", JStr "Service log not found")].

(** The service log [getServiceLogByVisitId] builds from a visit. *)
Definition formattedLog (visit : JsVal) : JsVal :=
  JObj [("visit_id", prop visit "id");
        ("customer_name", prop visit "customer_name");
        ("technician_name", prop visit "technician_name");
        ("start_time", prop visit "start_time");
        ("duration", prop visit "duration");
        ("service_type", JStr "myocide");
        ("work_type", prop visit "work_type");
        ("notes", prop visit "notes");
        ("created_at", prop visit "created_at");
        ("updated_at", prop visit "updated_at")].

(** [getServiceLogByVisitId], called as a method of the service object
    ([this.request] is [request]). *)
Definition getServiceLogByVisitId (visitId : JsVal) : M JsVal :=
  try_catch
    (result <- request "GET" ("/service-logs/" ++ ToString visitId) JNull ;;
     if truthy (opt_prop result "success") && truthy (prop result "log")
     then ret result
     else
       reportResult <- request "GET"
                         ("/reports/visit/" ++ ToString visitId) JNull ;;
       if truthy (opt_prop reportResult "success")
          && truthy (prop reportResult "report")
       then ret (JObj [("success", JBool true);
                       ("log", prop reportResult "report");
                       ("report", prop reportResult "report")])
       else
         found <- try_catch
                    (visitResult <- request "GET"
                                      ("/visits/" ++ ToString visitId)
                                      JNull ;;
                     if truthy (opt_prop visitResult "success")
                        && truthy (prop visitResult "visit")
                     then
                       ret (Some
                              (JObj [("success", JBool true);
                                     ("log",
                                      formattedLog (prop visitResult "visit"));
                                     ("report",
                                      formattedLog
                                        (prop visitResult "visit"))]))
                     else ret None)
                    (fun _ => ret None) ;;
         match found with
         | Some answer => ret answer
         | None => ret service_log_not_found
         end)
    (fun message =>
       ret (JObj [("success", JBool false); ("error", JStr message)])).

Definition debugAppointment (id : JsVal) : M JsVal :=
  getResult <- request "GET" ("/appointments/" ++ ToString id) JNull ;;
  early <- try_catch
             (debugResult <- request "GET"
                               ("/api/debug/appointment/" ++ ToString id)
                               JNull ;;
              ret (Some debugResult))
             (fun _ => ret None) ;;
  match early with
  | Some debugResult => ret debugResult
  | None => ret getResult
  end.

(** *** Appointments *)

(** The payload [createAppointment] builds before its conditional
    additions. *)
Definition appointmentData (payload : JsVal) : list (string * JsVal) :=
  [("technicianId", prop payload "technicianId");
   ("customerId", js_or (prop payload "customerId") JNull);
   ("legacyCustomerKey", js_or (prop payload "legacyCustomerKey") JNull);
   ("date", js_or (prop payload "date") (prop payload "appointmentDate"));
   ("time", js_or (prop payload "time") (prop payload "appointmentTime"));
   ("serviceType", prop payload "serviceType");
   ("status", js_or (prop payload "status") (JStr "scheduled"));
   ("specialServiceSubtype",
    js_or (prop payload "specialServiceSubtype") JNull);
   ("otherPestName", js_or (prop payload "otherPestName") JNull);
   ("appointmentCategory", js_or (prop payload "appointmentCategory") JNull);
   ("insecticideDetails", js_or (prop payload "insecticideDetails") JNull);
   ("disinfection_details",
    js_or (prop payload "disinfection_details") JNull)].

(** [if (cond) o.k = v]. *)
Definition put_when (cond : bool) (k : string) (v : JsVal)
    (fs : list (string * JsVal)) : list (string * JsVal) :=
  if cond then obj_put k v fs else fs.

(** The payload [createAppointment] sends. *)
Definition finalAppointmentData (payload : JsVal) : list (string * JsVal) :=
  put_when (truthy (prop payload "disinfection_details"))
    "disinfection_details" (prop payload "disinfection_details")
    (put_when (truthy (prop payload "insecticideDetails"))
       "insecticideDetails" (prop payload "insecticideDetails")
       (put_when (negb (is_undefined (prop payload "servicePrice")))
          "servicePrice" (prop payload "servicePrice")
          (put_when (truthy (prop payload "compliance_valid_until"))
             "compliance_valid_until" (prop payload "compliance_valid_until")
             (appointmentData payload)))).

(** [createAppointment].  Its debug log evaluates ['servicePrice' in
    payload], which raises a TypeError unless [payload] is an object or an
    array. *)
Definition createAppointment (payload : JsVal) : M JsVal :=
  if negb (typeof_object payload) || nullish payload then
    throw "Cannot use 'in' operator to search for 'servicePrice'"
  else
    result <- request "POST" "/appointments"
                (JObj (finalAppointmentData payload)) ;;
    ret result.

(** [updateAppointment(appointmentData, updates)]: [updates] is
    [arguments[1]], [undefined] when the call has one argument. *)
Definition updateAppointment (data updates : JsVal) : M JsVal :=
  let send (appointmentId payload : JsVal) : M JsVal :=
    if negb (truthy appointmentId) then
      ret (JObj [("success", JBool false);
                 ("error", JStr "Appointment ID is required")])
    else
      request "PUT" ("/appointments/" ++ ToString appointmentId) payload in
  if isString data then send data (js_or updates (JObj []))
  else if typeof_object data then
    appointmentId <- member data "id" ;;
    send appointmentId
      (JObj (obj_remove "id"
               match data with
               | JObj fields => fields
               | JArr items => array_entries 0 items
               | _ => []
               end))
  else
    ret (JObj [("success", JBool false);
               ("error", JStr "Invalid appointment data format")]).

(** *** Service and visit logging *)

(** The callback of [chemicalsUsed.map] in [logService]. *)
Definition formatChemical (chem : JsVal) : JsVal :=
  if isString chem then
    JObj [("name", chem); ("concentration", JStr ""); ("volume", JStr "")]
  else if truthy chem && typeof_object chem then
    JObj [("name",
           js_or (js_or (prop chem "name") (prop chem "chemicalName"))
             (JStr ""));
          ("concentration",
           js_or (js_or (prop chem "concentration")
                    (prop chem "concentrationPercent"))
             (JStr ""));
          ("volume",
           js_or (js_or (prop chem "volume") (prop chem "volumeMl"))
             (JStr ""))]
  else
    JObj [("name", JStr ""); ("concentration", JStr ""); ("volume", JStr "")].

(** [serviceData.chemicalsUsed?.map(...).filter(chem => chem.name) || []]:
    nothing for [null] and [undefined], a TypeError for a value that has no
    [map] to call. *)
Definition formattedChemicals (chemicalsUsed : JsVal) : M JsVal :=
  match chemicalsUsed with
  | JUndefined | JNull => ret (JArr [])
  | JArr items =>
      ret (JArr (js_filter (fun chem => truthy (prop chem "name"))
                   (map formatChemical items)))
  | _ => throw "serviceData.chemicalsUsed.map is not a function"
  end.

(** [logService], for a plain object [serviceData] given by its
    properties. *)
Definition logService (serviceData : list (string * JsVal)) : M JsVal :=
  let data := JObj serviceData in
  chemicals <- formattedChemicals (prop data "chemicalsUsed") ;;
  let formattedData :=
    JObj (obj_put "work_type" (js_or (prop data "work_type") JNull)
            (obj_put "disinfection_details"
               (js_or (prop data "disinfection_details") JNull)
               (obj_put "otherPestName"
                  (js_or (prop data "otherPestName") JNull)
                  (obj_put "insecticideDetails"
                     (js_or (prop data "insecticideDetails") JNull)
                     (obj_put "chemicalsUsed" chemicals serviceData))))) in
  result <- request "POST" "/log-service" formattedData ;;
  if truthy (opt_prop result "success") then ret result
  else
    throw (ToString (js_or (opt_prop result "error")
                       (JStr "Failed to save service"))).

Definition logVisitSummary (data : JsVal) : M JsVal :=
  startTime <- member data "startTime" ;;
  request "POST" "/log"
    (JObj [("startTime", startTime);
           ("endTime", prop data "endTime");
           ("duration", prop data "duration");
           ("customerId", prop data "customerId");
           ("customerName", prop data "customerName");
           ("technicianId", prop data "technicianId");
           ("technicianName", prop data "technicianName");
           ("totalStations",
            js_or (opt_prop (prop data "stationData") "totalStations") zero);
           ("loggedStations",
            js_or (opt_prop (prop data "stationData") "loggedStations") zero);
           ("appointmentId", js_or (prop data "appointmentId") (JStr ""));
           ("workType", js_or (prop data "workType") (JStr "Manual Visit"));
           ("visitId", prop data "visitId");
           ("isVisitSummary", JBool true)]).

(** The payload of the /log fallback of [logCompleteVisit]. *)
Definition visitData (visitSummary : list (string * JsVal))
    (stations : list JsVal) : JsVal :=
  let count := JNum (num_of_N (N.of_nat (length stations))) in
  JObj (obj_put "stationData"
          (JObj [("totalStations", count); ("loggedStations", count)])
          (obj_put "isVisitSummary" (JBool true) visitSummary)).

(** [logCompleteVisit], for a plain object [visitSummary] given by its
    properties and an array [stations] given by its elements.
    [toISOString v] is [new Date(v).toISOString()]: the text, or the
    message of the RangeError for an invalid date.  The errors the [try]
    block raises are made with [new Error(message)] and have no
    [networkError] property, so that test of the handler never holds. *)
Definition logCompleteVisit (toISOString : JsVal -> string + string)
    (visitSummary : list (string * JsVal)) (stations : list JsVal)
  : M JsVal :=
  let completeData :=
    JObj [("visitSummary", JObj visitSummary);
          ("stations", JArr stations);
          ("action", JStr "complete-visit")] in
  _ <- lift (toISOString (prop (JObj visitSummary) "startTime")) ;;
  _ <- lift (toISOString (prop (JObj visitSummary) "endTime")) ;;
  try_catch
    (result <- request "POST" "/visits/log-complete" completeData ;;
     if negb (truthy result) then throw "No response from server"
     else if is_true (prop result "success") then ret result
     else if is_false (prop result "success") then
       throw (ToString (js_or (prop result "error") (JStr "Save failed")))
     else if truthy (prop result "visitId") then
       ret (JObj (obj_merge [("success", JBool true)]
                    match result with
                    | JObj fields => fields
                    | _ => []
                    end))
     else throw "Unexpected response format")
    (fun message =>
       let errorMessage :=
         if message =? "" then "Failed to save visit" else message in
       rescued <-
         (if includes "404" message || includes "Not Found" message then
            try_catch
              (fallbackResult <- request "POST" "/log"
                                   (visitData visitSummary stations) ;;
               if truthy (opt_prop fallbackResult "success") then
                 ret (Some
                        (JObj [("success", JBool true);
                               ("visitId",
                                js_or (prop fallbackResult "visitId")
                                  (prop fallbackResult "logId"));
                               ("message",
                                JStr "Visit saved via fallback")]))
               else ret None)
              (fun _ => ret None)
          else ret None) ;;
       match rescued with
       | Some answer => ret answer
       | None => throw ("Save failed: " ++ errorMessage)
       end).

End ClientContinued.

(** ** What a call of [request] amounts to *)

(** The payload [request] works with: the parsed body, or [null] when the
    text is empty or is not JSON. *)
Definition parsed_body {RT : Runtime} (text : string) : JsVal :=
  if text =? "" then JNull
  else match JSON_parse text with
       | inl json => json
       | inr _ => JNull
       end.

(** The request that [request method endpoint body] hands to [fetch] when
    the token in memory is [token]. *)
Definition outgoing {RT : Runtime} (method endpoint : string)
    (body token : JsVal) : HttpRequest :=
  {| rq_method := method;
     rq_url := API_BASE_URL ++ endpoint;
     rq_headers := request_headers token;
     rq_body := if truthy body then Some body else None |}.

(** The world once [rq] has gone out and the first pending outcome of the
    network has been consumed. *)
Definition after_fetch (rq : HttpRequest) (w : World) : World :=
  {| authToken := authToken w; disk := disk w; disk_faults := disk_faults w;
     net := tl (net w); sent := (sent w ++ [rq])%list |}.

Definition success_envelope : JsVal := JObj [("success", JBool true)].

Definition network_failure (message : string) : JsVal :=
  JObj [("success", JBool false); ("error", JStr message);
        ("networkError", JBool true)].

Definition http_failure (status : N) (json : JsVal) : JsVal :=
  JObj [("success", JBool false);
        ("error",
         if truthy (opt_prop json "error") then opt_prop json "error"
         else JStr ("Request failed with status " ++ decimal status));
        ("status", JNum (num_of_N status));
        ("data", json)].

(** The value [request] returns, by the outcome its [fetch] call meets. *)
Definition request_answer {RT : Runtime} (pending : list FetchOutcome)
  : JsVal :=
  match pending with
  | Responds status (BodyText text) :: _ =>
      if res_ok status then
        (if truthy (parsed_body text) then parsed_body text
         else success_envelope)
      else http_failure status (parsed_body text)
  | Responds _ (BodyFails message) :: _ => network_failure message
  | Rejects message :: _ => network_failure message
  | [] => network_failure "Network request failed"
  end.

(** The value of the header [name] of an outgoing request, if it has one. *)
Definition header (name : string) (rq : HttpRequest) : option string :=
  assoc name (rq_headers rq).

(** The request [verifyTokenWithBackend token] hands to [fetch]. *)
Definition verify_request (token : JsVal) : HttpRequest :=
  {| rq_method := "POST";
     rq_url := API_BASE_URL ++ "/verify-token";
     rq_headers := [("Content-Type", "application/json")];
     rq_body := Some (JObj [("token", token)]) |}.

(** The value [verifyTokenWithBackend] returns, by the outcome its [fetch]
    call meets. *)
Definition verify_answer {RT : Runtime} (pending : list FetchOutcome)
  : JsVal :=
  let failed message :=
    JObj [("success", JBool false); ("error", JStr message)] in
  match pending with
  | Responds _ (BodyText text) :: _ =>
      match JSON_parse text with
      | inl result => result
      | inr message => failed message
      end
  | Responds _ (BodyFails message) :: _ => failed message
  | Rejects message :: _ => failed message
  | [] => failed "Network request failed"
  end.

(** ** The five list operations and the response shapes *)

Inductive ListOp : Type :=
| Customers
| Technicians
| Appointments (params : JsVal)
| BaitTypes
| Chemicals.

Definition run_list_op {RT : Runtime} (op : ListOp) : M JsVal :=
  match op with
  | Customers => getCustomers
  | Technicians => getTechnicians
  | Appointments params => getAppointments params
  | BaitTypes => getBaitTypes
  | Chemicals => getChemicals
  end.

(** The endpoint each operation asks [request] for. *)
Definition endpoint_of {RT : Runtime} (op : ListOp) : string :=
  match op with
  | Customers => "/customers"
  | Technicians => "/admin/technicians"
  | Appointments params =>
      let params := match params with JUndefined => JObj [] | _ => params end in
      let query := URLSearchParams_toString params in
      if negb (query =? "") then "/appointments?" ++ query
      else "/appointments"
  | BaitTypes => "/materials/bait-types"
  | Chemicals => "/materials/chemicals"
  end.

(** The domain-named field each operation looks under. *)
Definition field_of (op : ListOp) : string :=
  match op with
  | Customers => "customers"
  | Technicians => "technicians"
  | Appointments _ => "appointments"
  | BaitTypes => "baitTypes"
  | Chemicals => "chemicals"
  end.

(** The four success shapes of a list response. *)
Inductive Shape : Type :=
| BareArray
| DataField
| NamedField
| SuccessData.

(** [res] has the given shape, with [items] as its payload and [name] as
    the domain-named field: a bare array; an object with the array under
    [data] and no [success] flag; an object with the array under [name];
    an object with [success: true] and the array under [data].  Each
    shape has its array in one place only and is not an explicit failure. *)
Definition in_shape (name : string) (shape : Shape) (res : JsVal)
    (items : list JsVal) : Prop :=
  match shape with
  | BareArray => res = JArr items
  | DataField =>
      prop res "data" = JArr items
      /\ prop res "success" = JUndefined
      /\ isArray (prop res name) = false
  | NamedField =>
      prop res name = JArr items
      /\ isArray (prop res "data") = false
      /\ is_false (prop res "success") = false
  | SuccessData =>
      prop res "success" = JBool true
      /\ prop res "data" = JArr items
      /\ isArray (prop res name) = false
  end.

(** The elements an operation can map over without raising: customers
    that are neither [null] nor [undefined], appointments that
    [normalizeAppointment] accepts; the other operations do not look at
    the elements. *)
Definition well_formed {RT : Runtime} (op : ListOp) (items : list JsVal)
  : Prop :=
  match op with
  | Customers => Forall (fun c => nullish c = false) items
  | Appointments _ =>
      Forall (fun a => exists n, normalizeAppointment a = inl n) items
  | _ => True
  end.

(** The shapes each operation takes its payload from: [getCustomers] all
    four, the others all but a [data] field without a success flag. *)
Definition accepts (op : ListOp) (shape : Shape) : bool :=
  match op, shape with
  | Customers, _ => true
  | _, DataField => false
  | _, _ => true
  end.

(** ** The customer record *)

(** The shape of a record [getCustomers] returns: the seven fields in
    order, a string identifier, no [null] or [undefined] name, email,
    address or telephone, a date or [null], an array of maps. *)
Definition customer_record (r : JsVal) : Prop :=
  exists id name email address telephone valid maps,
    r = JObj [("customerId", JStr id); ("customerName", name);
              ("email", email); ("address", address);
              ("telephone", telephone); ("complianceValidUntil", valid);
              ("maps", JArr maps)]
    /\ nullish name = false /\ nullish email = false
    /\ nullish address = false /\ nullish telephone = false
    /\ valid <> JUndefined.

(** What the records of a list operation are, element by element and in
    order: for [getCustomers] the record [formatCustomer] makes of each
    element, in the customer contract; for [getAppointments] what
    [normalizeAppointment] makes of each element; for [getTechnicians],
    [getBaitTypes] and [getChemicals] the elements themselves, as the
    backend sent them. *)
Definition records_for {RT : Runtime} (op : ListOp)
    (items records : list JsVal) : Prop :=
  match op with
  | Customers =>
      Forall2 (fun c r => forall w, formatCustomer c w = (Ok r, w))
        items records
      /\ Forall customer_record records
  | Appointments _ =>
      Forall2 (fun a r => normalizeAppointment a = inl r) items records
  | _ => records = items
  end.

(** The station fields every payload of [logBaitStation] carries. *)
Definition station_payload (rq : HttpRequest) : Prop :=
  rq_method rq = "POST"
  /\ exists body, rq_body rq = Some body
                  /\ prop body "stationType" = JStr "BS"
                  /\ prop body "isVisitSummary" = JBool false.

(** ** Records of payloads *)

(** A chemical as [logService] sends it: the three fields in order, a
    truthy name, and a concentration and a volume that are truthy or the
    empty string. *)
Definition chemical_record (c : JsVal) : Prop :=
  exists name concentration volume,
    c = JObj [("name", name); ("concentration", concentration);
              ("volume", volume)]
    /\ truthy name = true
    /\ (truthy concentration = true \/ concentration = JStr "")
    /\ (truthy volume = true \/ volume = JStr "").

(** [v] is [fallback] when the caller gave nothing truthy under the name,
    and what the caller gave otherwise. *)
Definition defaulted (given fallback v : JsVal) : Prop :=
  v = if truthy given then given else fallback.

(** ** A process restart *)

(** The world a new process starts in: nothing in memory, nothing sent, the
    storage as the last process left it. *)
Definition cold_start (w : World) : World :=
  {| authToken := JNull; disk := disk w; disk_faults := disk_faults w;
     net := net w; sent := [] |}.

(** ** A runtime and worlds for the examples *)

Definition dq : string := String (ascii_of_nat 34) EmptyString.
Definition quoted (s : string) : string := dq ++ s ++ dq.
Definition json_field (k v : string) : string := quoted k ++ ":" ++ v.

Definition five : spec_float := S754_finite false 5 0.
Definition one : spec_float := S754_finite false 1 0.

(** Response bodies, as the texts a backend sends. *)
Definition body_not_found : string :=
  "{" ++ json_field "error" (quoted "Not found") ++ "}".
Definition body_empty_error : string :=
  "{" ++ json_field "error" (dq ++ dq) ++ "}".
Definition body_five : string := "5".
Definition body_success : string :=
  "{" ++ json_field "success" "true" ++ "}".
Definition body_failure : string :=
  "{" ++ json_field "success" "false" ++ "}".
Definition body_data_list : string :=
  "{" ++ json_field "data" ("[{" ++ json_field "id" "1" ++ "}]") ++ "}".
Definition body_failure_with_technicians : string :=
  "{" ++ json_field "success" "false" ++ ","
      ++ json_field "technicians" ("[{" ++ json_field "id" "1" ++ "}]")
      ++ "}".
Definition body_login_admin : string :=
  "{" ++ json_field "success" "true" ++ ","
      ++ json_field "role" (quoted "admin") ++ ","
      ++ json_field "token" (quoted "abc") ++ "}".
Definition body_types : string :=
  "{" ++ json_field "success" "true" ++ ","
      ++ json_field "types" ("[" ++ quoted "Brodifacoum" ++ "]") ++ "}".

(** The values those bodies parse to. *)
Definition example_bodies : list (string * JsVal) :=
  [(body_not_found, JObj [("error", JStr "Not found")]);
   (body_empty_error, JObj [("error", JStr "")]);
   (body_five, JNum five);
   (body_success, JObj [("success", JBool true)]);
   (body_failure, JObj [("success", JBool false)]);
   (body_data_list, JObj [("data", JArr [JObj [("id", JNum one)]])]);
   (body_failure_with_technicians,
    JObj [("success", JBool false);
          ("technicians", JArr [JObj [("id", JNum one)]])]);
   (body_login_admin,
    JObj [("success", JBool true); ("role", JStr "admin");
          ("token", JStr "abc")]);
   (body_types,
    JObj [("success", JBool true); ("types", JArr [JStr "Brodifacoum"])])].

(** A runtime for the examples: it parses the texts of [example_bodies]
    and rejects every other text, prints integral numbers, has no query
    string to build and a [normalizeAppointment] that keeps objects as they
    are and raises on [null] and [undefined]. *)
Definition exampleRuntime : Runtime := {|
  JSON_parse text :=
    match assoc text example_bodies with
    | Some json => inl json
    | None => inr "JSON Parse error: Unexpected token"
    end;
  Number_toString x :=
    match x with
    | S754_zero _ => "0"
    | S754_finite false m 0 => decimal (Npos m)
    | S754_finite true m 0 => "-" ++ decimal (Npos m)
    | S754_infinity false => "Infinity"
    | S754_infinity true => "-Infinity"
    | _ => "NaN"
    end;
  URLSearchParams_toString _ := "";
  normalizeAppointment a :=
    if nullish a then inr "Cannot read property 'id' of null" else inl a
|}.

(** The data of one station reading. *)
Definition example_station : JsVal :=
  JObj [("timestamp", JStr "2025-01-01T10:00:00Z");
        ("customerId", JStr "c1");
        ("stationId", JStr "7");
        ("baitType", JStr "Brodifacoum");
        ("technicianId", JStr "t1");
        ("visitId", JStr "v1")].

(** A world that holds [token] in memory and on disk, with the given
    pending network outcomes, a storage that works and nothing sent yet. *)
Definition world_with (token : JsVal) (pending : list FetchOutcome) : World :=
  {| authToken := token;
     disk := if truthy token then Some token else None;
     disk_faults := [];
     net := pending;
     sent := [] |}.

(** A world that holds the token abc and whose next request is answered
    with [status] and the text [body]. *)
Definition answering (status : N) (body : string) : World :=
  world_with (JStr "abc") [Responds status (BodyText body)].

(** Two missing endpoints, then one that answers [{success: true}]. *)
Definition station_world : World :=
  world_with (JStr "abc")
    [Responds 404 (BodyText "Cannot POST /api/station-logs");
     Responds 404 (BodyText "Cannot POST /api/log-station");
     Responds 200 (BodyText body_success)].

(** A login answered with the token abc, then a verification answered
    with [{success: false}]. *)
Definition login_world : World :=
  world_with JNull
    [Responds 200 (BodyText body_login_admin);
     Responds 401 (BodyText body_failure)].

(** ** More examples: bodies, a runtime and data *)

Definition body_null : string := "null".
Definition body_null_list : string := "[null]".
Definition body_appointments_text : string :=
  "{" ++ json_field "appointments" (quoted "none") ++ "}".
Definition body_technicians : string :=
  "{" ++ json_field "technicians" ("[{" ++ json_field "id" "1" ++ "}]") ++ "}".
Definition body_indexed_visit : string :=
  "{" ++ json_field "visitId" (quoted "v9") ++ ","
      ++ json_field "7" (quoted "x") ++ "}".

(** [exampleRuntime] with five more bodies it can parse. *)
Definition widerRuntime : Runtime := {|
  JSON_parse text :=
    match assoc text [(body_null, JNull);
                      (body_null_list, JArr [JNull]);
                      (body_appointments_text,
                       JObj [("appointments", JStr "none")]);
                      (body_technicians,
                       JObj [("technicians", JArr [JObj [("id", JNum one)]])]);
                      (body_indexed_visit,
                       JObj [("7", JStr "x"); ("visitId", JStr "v9")])] with
    | Some json => inl json
    | None => @JSON_parse exampleRuntime text
    end;
  Number_toString := @Number_toString exampleRuntime;
  URLSearchParams_toString := @URLSearchParams_toString exampleRuntime;
  normalizeAppointment := @normalizeAppointment exampleRuntime
|}.

(** The message of a ReferenceError, in the wording of V8. *)
Definition not_defined (name : string) : string := name ++ " is not defined".

(** A printer of dates that accepts strings only. *)
Definition iso_of_text (v : JsVal) : string + string :=
  match v with
  | JStr text => inl text
  | _ => inr "Invalid time value"
  end.

Definition example_appointment : list (string * JsVal) :=
  [("id", JStr "a1"); ("status", JStr "completed");
   ("visitId", JStr "v1")].

Definition example_service : list (string * JsVal) :=
  [("customerId", JStr "c1"); ("serviceType", JStr "insecticide");
   ("chemicalsUsed",
    JArr [JStr "Permethrin";
          JObj [("chemicalName", JStr "Fipronil"); ("volumeMl", JStr "20")];
          JNull])].

Definition example_visit : list (string * JsVal) :=
  [("startTime", JStr "2025-01-01T10:00:00.000Z");
   ("endTime", JStr "2025-01-01T10:30:00.000Z");
   ("customerId", JStr "c1")].

(** The endpoint is missing, then /log answers [{success: true}]. *)
Definition complete_visit_world : World :=
  world_with (JStr "abc")
    [Responds 404 (BodyText "Cannot POST /api/visits/log-complete");
     Responds 200 (BodyText body_success)].

(** A login answered with the token abc, then a verification answered
    with [{success: true}]. *)
Definition verified_login_world : World :=
  world_with JNull
    [Responds 200 (BodyText body_login_admin);
     Responds 200 (BodyText body_success)].

(** A login answered with the token abc, then a verification answered
    with the text null. *)
Definition null_verification_world : World :=
  world_with JNull
    [Responds 200 (BodyText body_login_admin);
     Responds 200 (BodyText body_null)].

(** ** The transport wrapper *)

(** [request] always returns: its value is [request_answer] of the pending
    outcomes, and the only change to the world is the one outgoing request. *)
Lemma request_run {RT : Runtime} (method endpoint : string) (body : JsVal)
    (w : World) :
  request method endpoint body w =
  (Ok (request_answer (net w)),
   after_fetch (outgoing method endpoint body (authToken w)) w).
Proof.
  unfold request, bind, getCurrentToken, try_catch, fetch, after_fetch,
    outgoing, request_answer, parsed_body.
  destruct (net w) as [|[status [text|message]|message] rest]; cbn;
    try reflexivity.
  destruct (text =? ""); cbn.
  - destruct (res_ok status); reflexivity.
  - destruct (JSON_parse text) as [json|e]; cbn;
      destruct (res_ok status); reflexivity.
Qed.

Lemma verify_run {RT : Runtime} (token : JsVal) (w : World) :
  verifyTokenWithBackend token w =
  (Ok (verify_answer (net w)), after_fetch (verify_request token) w).
Proof.
  unfold verifyTokenWithBackend, bind, try_catch, fetch, after_fetch,
    verify_request, verify_answer, res_json, res_text, lift.
  destruct (net w) as [|[status [text|message]|message] rest]; cbn;
    try reflexivity.
  destruct (JSON_parse text); reflexivity.
Qed.

(** C4, as the code has it: [request] does not raise when its body is
    absent, falsy or a value [JSON.stringify] can serialize.  Whatever the
    network does it then returns a value; a response body that is empty or
    is not JSON gives a [null] payload and the call goes on to classify by
    status; a rejected [fetch] is returned as the envelope
    [{success:false, error: message, networkError:true}].  A body that
    [JSON.stringify] raises on makes [request] raise that error before
    anything is sent, since the serialization precedes the [try]. *)
Theorem request_never_raises {RT : Runtime} (method endpoint : string)
    (body : JsVal) (w : World) :
  (exists v w', request method endpoint body w = (Ok v, w'))
  /\ (forall status text rest,
        net w = Responds status (BodyText text) :: rest ->
        text = "" \/ (exists e, JSON_parse text = inr e) ->
        parsed_body text = JNull
        /\ fst (request method endpoint body w) =
           Ok (if res_ok status then JObj [("success", JBool true)]
               else JObj [("success", JBool false);
                          ("error",
                           JStr ("Request failed with status "
                                 ++ decimal status));
                          ("status", JNum (num_of_N status));
                          ("data", JNull)]))
  /\ (forall message rest,
        net w = Rejects message :: rest ->
        fst (request method endpoint body w) =
        Ok (JObj [("success", JBool false); ("error", JStr message);
                  ("networkError", JBool true)]))
  /\ request_any method endpoint (Serializable body) w =
     request method endpoint body w
  /\ (forall message,
        request_any method endpoint (Unserializable message) w =
        (Throw message, w)).
Proof.
  assert (Hany : request_any method endpoint (Serializable body) w =
                 request method endpoint body w
                 /\ (forall message,
                       request_any method endpoint (Unserializable message) w =
                       (Throw message, w))).
  { split; [reflexivity|]. intros message. destruct w. reflexivity. }
  rewrite request_run. rewrite request_run in Hany.
  split; [eauto|]. split; [|split; [|exact Hany]].
  - intros status text rest Hnet Hbad.
    assert (Hnull : parsed_body text = JNull).
    { unfold parsed_body. destruct Hbad as [->|[e He]]; [reflexivity|].
      rewrite He. destruct (text =? ""); reflexivity. }
    split; [exact Hnull|].
    cbn [fst]. unfold request_answer. rewrite Hnet, Hnull.
    destruct (res_ok status); reflexivity.
  - intros message rest Hnet. cbn [fst]. unfold request_answer.
    rewrite Hnet. reflexivity.
Qed.

(** C3, as the code has it: a response whose status is outside 200-299 is
    returned as [{success:false, error, status, data}], with the status
    code, the parsed body or [null] as [data], and as [error] the [error]
    field of the parsed body when that field is truthy, else the message
    "Request failed with status N". *)
Theorem request_http_failure {RT : Runtime} (method endpoint : string)
    (body : JsVal) (w : World) (status : N) (text : string)
    (rest : list FetchOutcome) :
  net w = Responds status (BodyText text) :: rest ->
  res_ok status = false ->
  fst (request method endpoint body w) =
  Ok (JObj [("success", JBool false);
            ("error",
             if truthy (opt_prop (parsed_body text) "error")
             then opt_prop (parsed_body text) "error"
             else JStr ("Request failed with status " ++ decimal status));
            ("status", JNum (num_of_N status));
            ("data", parsed_body text)]).
Proof.
  intros Hnet Hok. rewrite request_run. cbn [fst].
  unfold request_answer. rewrite Hnet, Hok. reflexivity.
Qed.

(** C9, as the code has it: on a status in 200-299 [request] returns the
    parsed body itself when it is truthy (an object, an array, a non-empty
    string, a non-zero number, [true]) and [{success:true}] otherwise (no
    body, a body that is not JSON, [null], [false], zero, the empty
    string). *)
Theorem request_success_body {RT : Runtime} (method endpoint : string)
    (body : JsVal) (w : World) (status : N) (text : string)
    (rest : list FetchOutcome) :
  net w = Responds status (BodyText text) :: rest ->
  res_ok status = true ->
  fst (request method endpoint body w) =
    Ok (if truthy (parsed_body text) then parsed_body text
        else JObj [("success", JBool true)])
  /\ (forall fields, parsed_body text = JObj fields ->
        fst (request method endpoint body w) = Ok (JObj fields))
  /\ (forall items, parsed_body text = JArr items ->
        fst (request method endpoint body w) = Ok (JArr items))
  /\ (parsed_body text = JNull ->
        fst (request method endpoint body w) =
        Ok (JObj [("success", JBool true)])).
Proof.
  intros Hnet Hok. rewrite request_run. cbn [fst].
  unfold request_answer. rewrite Hnet, Hok.
  repeat split; try reflexivity; intros; rewrite H; reflexivity.
Qed.

(** ** The Authorization header *)

(** C7, as the code has it: each call of [request] sends exactly one
    request, to the base URL followed by the endpoint, and that request
    carries [Authorization: Bearer <token>] when a token is held and no
    Authorization header when none is; [verifyTokenWithBackend] calls
    [fetch] itself and sends the token in the body, with no Authorization
    header. *)
Theorem request_attaches_token {RT : Runtime} (method endpoint : string)
    (body token : JsVal) (w : World) :
  (exists rq,
      sent (snd (request method endpoint body w)) = (sent w ++ [rq])%list
      /\ rq_method rq = method
      /\ rq_url rq = API_BASE_URL ++ endpoint
      /\ header "Content-Type" rq = Some "application/json"
      /\ header "Authorization" rq =
         if truthy (authToken w)
         then Some ("Bearer " ++ ToString (authToken w))
         else None)
  /\ (exists rq,
        sent (snd (verifyTokenWithBackend token w)) = (sent w ++ [rq])%list
        /\ rq_url rq = API_BASE_URL ++ "/verify-token"
        /\ rq_body rq = Some (JObj [("token", token)])
        /\ header "Authorization" rq = None).
Proof.
  split.
  - rewrite request_run. eexists. split; [reflexivity|].
    repeat split. cbn. destruct (truthy (authToken w)); reflexivity.
  - rewrite verify_run. eexists. split; [reflexivity|]. repeat split.
Qed.

(** ** The session token *)

Lemma setAuthToken_run (token : JsVal) (w : World) :
  fst (setAuthToken token w) = Ok tt
  /\ authToken (snd (setAuthToken token w)) = token
  /\ net (snd (setAuthToken token w)) = net w
  /\ sent (snd (setAuthToken token w)) = sent w
  /\ disk_faults (snd (setAuthToken token w)) = tl (disk_faults w)
  /\ (hd false (disk_faults w) = false ->
      disk (snd (setAuthToken token w)) =
      if truthy token then Some token else None)
  /\ (hd false (disk_faults w) = true ->
      disk (snd (setAuthToken token w)) = disk w).
Proof.
  unfold setAuthToken, bind, try_catch, assign_authToken,
    AsyncStorage_setItem, AsyncStorage_removeItem, storage_call, ret.
  destruct (truthy token); destruct (disk_faults w) as [|[|] later]; cbn;
    repeat split; intros; try reflexivity; discriminate.
Qed.

Lemma clearAuthToken_run (w : World) :
  fst (clearAuthToken w) = Ok tt
  /\ authToken (snd (clearAuthToken w)) = JNull
  /\ net (snd (clearAuthToken w)) = net w
  /\ sent (snd (clearAuthToken w)) = sent w
  /\ disk_faults (snd (clearAuthToken w)) = tl (disk_faults w)
  /\ (hd false (disk_faults w) = false -> disk (snd (clearAuthToken w)) = None)
  /\ (hd false (disk_faults w) = true ->
      disk (snd (clearAuthToken w)) = disk w).
Proof.
  unfold clearAuthToken, bind, try_catch, assign_authToken,
    AsyncStorage_removeItem, storage_call, ret.
  destruct (disk_faults w) as [|[|] later]; cbn;
    repeat split; intros; try reflexivity; discriminate.
Qed.

(** C8, as the code has it: the token round trip.  After [setAuthToken(t)]
    with a non-empty [t], [getCurrentToken()] is [t]; after
    [clearAuthToken()] it is [null]; after [setAuthToken] with a falsy
    token (empty string, [null], [undefined]) [getCurrentToken()] is that
    falsy value itself, [null] only when [null] was passed; the value is
    falsy, so the client sends no token, the storage entry is the one a
    clear leaves, and it is gone whenever the storage call goes through.
    A storage call that rejects is swallowed in every case. *)
Theorem token_round_trip (w : World) :
  (forall t, t <> "" ->
     fst (setAuthToken (JStr t) w) = Ok tt
     /\ fst (getCurrentToken (snd (setAuthToken (JStr t) w))) = Ok (JStr t))
  /\ (fst (clearAuthToken w) = Ok tt
      /\ fst (getCurrentToken (snd (clearAuthToken w))) = Ok JNull)
  /\ (forall token, truthy token = false ->
        fst (setAuthToken token w) = Ok tt
        /\ fst (getCurrentToken (snd (setAuthToken token w))) = Ok token
        /\ truthy (authToken (snd (setAuthToken token w))) = false
        /\ disk (snd (setAuthToken token w)) = disk (snd (clearAuthToken w))
        /\ (hd false (disk_faults w) = false ->
            disk (snd (setAuthToken token w)) = None)).
Proof.
  split; [|split].
  - intros t _. destruct (setAuthToken_run (JStr t) w) as (Hok & Htok & _).
    split; [exact Hok|]. unfold getCurrentToken. cbn [fst]. now rewrite Htok.
  - destruct (clearAuthToken_run w) as (Hok & Htok & _).
    split; [exact Hok|]. unfold getCurrentToken. cbn [fst]. now rewrite Htok.
  - intros token Hfalsy.
    destruct (setAuthToken_run token w)
      as (Hok & Htok & _ & _ & _ & Hgood & Hbad).
    destruct (clearAuthToken_run w) as (_ & _ & _ & _ & _ & Cgood & Cbad).
    rewrite Hfalsy in Hgood.
    repeat split.
    + exact Hok.
    + unfold getCurrentToken. cbn [fst]. now rewrite Htok.
    + now rewrite Htok.
    + destruct (hd false (disk_faults w)) eqn:Hfault.
      * now rewrite Hbad, Cbad.
      * now rewrite Hgood, Cgood.
    + exact Hgood.
Qed.

(** ** Login *)

(** C6: when the login response is successful and carries a token, and
    the verification that follows reports failure, [login] returns the
    failure envelope with the error "Token validation failed. Please try
    again.", no token is held afterwards ([getCurrentToken()] is [null]),
    and the storage entry is removed when the storage call of the clear
    goes through. *)
Theorem login_token_rejected {RT : Runtime} (email password : JsVal)
    (w w1 w3 : World) (result verification : JsVal) :
  request "POST" "/login"
    (JObj [("email", email); ("password", password)]) w = (Ok result, w1) ->
  truthy (prop result "success") = true ->
  truthy (prop result "token") = true ->
  verifyTokenWithBackend (prop result "token")
    (snd (setAuthToken (prop result "token") w1)) = (Ok verification, w3) ->
  nullish verification = false ->
  truthy (prop verification "success") = false ->
  exists w',
    login email password w =
      (Ok (JObj [("success", JBool false);
                 ("error",
                  JStr "Token validation failed. Please try again.")]), w')
    /\ fst (getCurrentToken w') = Ok JNull
    /\ (hd false (disk_faults w3) = false -> disk w' = None).
Proof.
  intros Hreq Hsuccess Htoken Hverify Hnonnull Hfailed.
  exists (snd (clearAuthToken w3)).
  destruct (clearAuthToken_run w3) as (Cok & Ctok & _ & _ & _ & Cgood & _).
  split; [|split; [unfold getCurrentToken; cbn [fst]; now rewrite Ctok
                  | exact Cgood]].
  assert (Hres : nullish result = false /\ truthy result = true).
  { destruct result; cbn in Hsuccess; try discriminate; split; reflexivity. }
  destruct Hres as [Hnn Htr].
  destruct (setAuthToken_run (prop result "token") w1) as (Sok & Stok & _).
  unfold login, bind at 1. rewrite Hreq, Htr. cbn [negb].
  unfold member, bind. rewrite Hnn. unfold ret at 1. rewrite Hsuccess.
  cbn [negb]. unfold ret at 1.
  unfold login_check_token. rewrite Htoken. unfold bind.
  destruct (setAuthToken (prop result "token") w1) as [r2 w2] eqn:Hset.
  cbn [fst snd] in *. subst r2.
  unfold getCurrentToken. rewrite Stok, Htoken, Hverify.
  unfold member. rewrite Hnonnull. unfold ret at 1. rewrite Hfailed.
  cbn [negb].
  destruct (clearAuthToken w3) as [r4 w4] eqn:Hclear.
  cbn [fst snd] in *. subst r4. reflexivity.
Qed.

(** ** Station logging *)

Lemma try_endpoint_run {RT : Runtime} (endpoint : string) (payload : JsVal)
    (w : World) :
  try_endpoint endpoint payload w =
  (Ok (if truthy (opt_prop (request_answer (net w)) "success")
       then Some (request_answer (net w)) else None),
   after_fetch (outgoing "POST" endpoint payload (authToken w)) w).
Proof.
  unfold try_endpoint, try_catch, bind. rewrite request_run.
  destruct (truthy (opt_prop (request_answer (net w)) "success"));
    reflexivity.
Qed.

(** [logBaitStation] on a [data] that can be read from, as three attempts
    in a row. *)
Lemma logBaitStation_run {RT : Runtime} (data : JsVal) (w : World) :
  nullish data = false ->
  logBaitStation data w =
  let station := JObj (stationData data) in
  let r1 := request_answer (net w) in
  let w1 :=
    after_fetch (outgoing "POST" "/station-logs" station (authToken w)) w in
  if truthy (opt_prop r1 "success") then (Ok r1, w1)
  else
    let r2 := request_answer (net w1) in
    let w2 :=
      after_fetch (outgoing "POST" "/log-station" station (authToken w1)) w1 in
    if truthy (opt_prop r2 "success") then (Ok r2, w2)
    else
      (Ok (request_answer (net w2)),
       after_fetch
         (outgoing "POST" "/log" (fallbackData (stationData data))
            (authToken w2)) w2).
Proof.
  intros Hdata.
  unfold logBaitStation, member, bind. rewrite Hdata.
  unfold ret. cbv beta iota zeta. rewrite try_endpoint_run.
  destruct (truthy (opt_prop (request_answer (net w)) "success"));
    [reflexivity|].
  rewrite try_endpoint_run.
  match goal with
  | |- context [if ?c then Some _ else None] => destruct c
  end; [reflexivity|].
  unfold try_catch. rewrite request_run. reflexivity.
Qed.

(** C5: [logBaitStation] tries /station-logs, then /log-station, then
    /log.  The first attempt always goes out; if its result is a success
    that result is returned and nothing else is sent; otherwise the second
    goes out with the same payload, and if it succeeds its result is
    returned and /log is never called; otherwise /log is called with the
    payload extended by [action: station-log] and [serviceType: myocide],
    and its result is returned. *)
Theorem logBaitStation_fallback_chain {RT : Runtime} (data : JsVal)
    (w : World) :
  nullish data = false ->
  let station := JObj (stationData data) in
  let attempt endpoint payload :=
    outgoing "POST" endpoint payload (authToken w) in
  exists r1 w1,
    request "POST" "/station-logs" station w = (Ok r1, w1)
    /\ if truthy (opt_prop r1 "success") then
         logBaitStation data w = (Ok r1, w1)
         /\ sent w1 = (sent w ++ [attempt "/station-logs" station])%list
       else
         exists r2 w2,
           request "POST" "/log-station" station w1 = (Ok r2, w2)
           /\ if truthy (opt_prop r2 "success") then
                logBaitStation data w = (Ok r2, w2)
                /\ sent w2 =
                   (sent w ++ [attempt "/station-logs" station;
                               attempt "/log-station" station])%list
              else
                exists r3 w3,
                  request "POST" "/log" (fallbackData (stationData data)) w2
                  = (Ok r3, w3)
                  /\ logBaitStation data w = (Ok r3, w3)
                  /\ sent w3 =
                     (sent w ++ [attempt "/station-logs" station;
                                 attempt "/log-station" station;
                                 attempt "/log"
                                   (fallbackData (stationData data))])%list
                  /\ fallbackData (stationData data) =
                     JObj (stationData data
                           ++ [("action", JStr "station-log");
                               ("serviceType", JStr "myocide")])%list.
Proof.
  intros Hdata station attempt.
  rewrite logBaitStation_run by exact Hdata. cbv zeta. fold station.
  rewrite request_run. do 2 eexists. split; [reflexivity|].
  destruct (truthy (opt_prop (request_answer (net w)) "success")).
  { split; reflexivity. }
  rewrite request_run. do 2 eexists. split; [reflexivity|].
  match goal with
  | |- context [if ?c then _ else _] => destruct c
  end.
  { split; [reflexivity|]. cbn. now rewrite <- app_assoc. }
  rewrite request_run. do 2 eexists. split; [reflexivity|].
  split; [reflexivity|]. split; [|reflexivity].
  cbn. now rewrite <- !app_assoc.
Qed.

(** ** The name helpers *)

Lemma isArray_elements (v : JsVal) : isArray v = true -> v = JArr (elements v).
Proof. destruct v; cbn; intros H; try discriminate; reflexivity. Qed.

Lemma array_not_success (items : list JsVal) :
  truthy (opt_prop (JArr items) "success") = false.
Proof. reflexivity. Qed.

Lemma opt_prop_array (v : JsVal) (k : string) :
  isArray (opt_prop v k) = true -> isArray (prop v k) = true.
Proof. unfold opt_prop. destruct (nullish v); [discriminate|trivial]. Qed.

(** Splits on every test of the goal, keeping what each test found. *)
Ltac split_tests :=
  repeat match goal with
         | |- context [if ?c then _ else _] =>
             let E := fresh "E" in destruct c eqn:E
         end.

(** Closes a goal that asks for an array, given that a test found one. *)
Ltac found_array :=
  unfold ret;
  match goal with
  | E : isArray (opt_prop ?v ?k) = true |- _ =>
      rewrite (isArray_elements (prop v k) (opt_prop_array v k E));
      solve [eauto]
  | E : isArray ?v = true |- _ =>
      rewrite (isArray_elements v E); solve [eauto]
  | E : (_ && isArray ?v)%bool = true |- _ =>
      apply andb_prop in E; destruct E as [_ E];
      rewrite (isArray_elements v E); solve [eauto]
  | |- _ => solve [eauto]
  end.

(** [getBaitTypes] returns an array, whatever the network does. *)
Lemma getBaitTypes_array {RT : Runtime} (w : World) :
  exists items w', getBaitTypes w = (Ok (JArr items), w').
Proof.
  unfold getBaitTypes, try_catch, bind. rewrite request_run.
  split_tests; found_array.
Qed.

(** [getChemicals] returns an array, whatever the network does. *)
Lemma getChemicals_array {RT : Runtime} (w : World) :
  exists items w', getChemicals w = (Ok (JArr items), w').
Proof.
  unfold getChemicals, bind. rewrite request_run.
  split_tests; found_array.
Qed.

Lemma names_of_array {RT : Runtime} (getList : M JsVal) (field : string)
    (w : World) :
  (exists items w', getList w = (Ok (JArr items), w')) ->
  fst (names_of getList field w) = Ok (JArr []).
Proof.
  intros (items & w' & Hlist).
  unfold names_of, try_catch, bind. rewrite Hlist, array_not_success.
  reflexivity.
Qed.

(** C10: [getBaitTypeNames()] and [getChemicalNames()] return the empty
    list whatever the backend answers: [getBaitTypes()] and
    [getChemicals()] always return an array, an array has no [success]
    field, so the branch that extracts names is never taken. *)
Theorem name_helpers_return_empty {RT : Runtime} (w : World) :
  fst (getBaitTypeNames w) = Ok (JArr [])
  /\ fst (getChemicalNames w) = Ok (JArr [])
  /\ (exists items, fst (getBaitTypes w) = Ok (JArr items)
                    /\ truthy (opt_prop (JArr items) "success") = false)
  /\ (exists items, fst (getChemicals w) = Ok (JArr items)
                    /\ truthy (opt_prop (JArr items) "success") = false).
Proof.
  repeat split.
  - apply names_of_array, getBaitTypes_array.
  - apply names_of_array, getChemicals_array.
  - destruct (getBaitTypes_array w) as (items & w' & H).
    exists items. rewrite H. split; reflexivity.
  - destruct (getChemicals_array w) as (items & w' & H).
    exists items. rewrite H. split; reflexivity.
Qed.

(** ** The list operations *)

(** Mapping a callback that returns on every element gives one result per
    element and leaves the world as it is. *)
Lemma mapM_returns {A B : Type} (f : A -> M B) (items : list A) (w : World) :
  Forall (fun x => exists y, forall w', f x w' = (Ok y, w')) items ->
  exists ys, mapM f items w = (Ok ys, w) /\ length ys = length items.
Proof.
  induction 1 as [|x rest [y Hy] _ [ys [Hys Hlen]]].
  - exists []. split; reflexivity.
  - exists (y :: ys). cbn [mapM]. unfold bind. rewrite Hy, Hys.
    split; [reflexivity|]. cbn. now rewrite Hlen.
Qed.

Lemma formatCustomer_returns {RT : Runtime} (items : list JsVal) :
  Forall (fun c => nullish c = false) items ->
  Forall (fun c => exists y, forall w, formatCustomer c w = (Ok y, w)) items.
Proof.
  intros H. eapply Forall_impl; [|exact H]. cbv beta. intros c Hc.
  unfold formatCustomer, member, bind. rewrite Hc. eexists. intros w.
  reflexivity.
Qed.

Lemma normalizeAppointment_returns {RT : Runtime} (items : list JsVal) :
  Forall (fun a => exists n, normalizeAppointment a = inl n) items ->
  Forall (fun a => exists y, forall w,
            lift (normalizeAppointment a) w = (Ok y, w)) items.
Proof.
  intros H. eapply Forall_impl; [|exact H]. cbv beta. intros a [n Hn].
  exists n. intros w. rewrite Hn. reflexivity.
Qed.

(** The raw customer [{id: 5, name: Acme, compliance_valid_until:
    2025-01-01}] (all three as strings) and its record. *)
Lemma formatCustomer_acme {RT : Runtime} (w : World) :
  formatCustomer
    (JObj [("id", JStr "5"); ("name", JStr "Acme");
           ("compliance_valid_until", JStr "2025-01-01")]) w =
  (Ok (JObj [("customerId", JStr "5"); ("customerName", JStr "Acme");
             ("email", JStr ""); ("address", JStr "");
             ("telephone", JStr "");
             ("complianceValidUntil", JStr "2025-01-01");
             ("maps", JArr [])]), w).
Proof. reflexivity. Qed.

(** A value with an array under a property is an object: it is truthy,
    and it is not an array itself. *)
Lemma holder_is_object (res : JsVal) (k : string) (items : list JsVal) :
  prop res k = JArr items ->
  truthy res = true /\ isArray res = false /\ nullish res = false.
Proof.
  intros H. destruct res; cbn in H; try discriminate.
  - destruct (k =? "length"); discriminate.
  - destruct (k =? "length"); discriminate.
  - repeat split.
Qed.

Lemma flagged_is_object (res : JsVal) (b : bool) :
  prop res "success" = JBool b ->
  truthy res = true /\ isArray res = false /\ nullish res = false.
Proof.
  intros H. destruct res; cbn in H; try discriminate. repeat split.
Qed.

(** [formatCustomer] on an element that can be read from: the record it
    returns, in any world, is in the customer contract. *)
Lemma formatCustomer_normalizes {RT : Runtime} (c : JsVal) :
  nullish c = false ->
  exists r, (forall w, formatCustomer c w = (Ok r, w)) /\ customer_record r.
Proof.
  intros Hc. unfold formatCustomer, member, bind. rewrite Hc.
  eexists. split; [intros w; reflexivity|].
  unfold customer_record.
  assert (Hmaps : exists maps,
             (if isArray (prop c "maps") then prop c "maps" else JArr []) =
             JArr maps).
  { destruct (isArray (prop c "maps")) eqn:E; [|eauto].
    exists (elements (prop c "maps")). now apply isArray_elements. }
  destruct Hmaps as [maps Hmaps]. rewrite Hmaps.
  do 7 eexists. split; [reflexivity|].
  assert (Hdefault : forall a b, nullish b = false ->
                                 nullish (js_coalesce a b) = false).
  { intros a b Hb. unfold js_coalesce. destruct (nullish a) eqn:E; congruence. }
  repeat split; try (apply Hdefault; reflexivity).
  unfold js_coalesce.
  destruct (nullish (if nullish (prop c "complianceValidUntil")
                     then prop c "compliance_valid_until"
                     else prop c "complianceValidUntil")) eqn:E;
    [discriminate|].
  intros Hundef. rewrite Hundef in E. discriminate.
Qed.

(** Mapping [formatCustomer] over elements that can be read from gives
    the record of each, in order. *)
Lemma mapM_formatCustomer_pairs {RT : Runtime} (items : list JsVal)
    (w : World) :
  Forall (fun c => nullish c = false) items ->
  exists records,
    mapM formatCustomer items w = (Ok records, w)
    /\ Forall2 (fun c r => forall w', formatCustomer c w' = (Ok r, w'))
         items records
    /\ Forall customer_record records.
Proof.
  induction 1 as [|c rest Hc _ (records & Hmap & Hpairs & Hall)].
  - exists []. repeat split; constructor.
  - destruct (formatCustomer_normalizes c Hc) as (r & Hr & Hrec).
    exists (r :: records). cbn [mapM]. unfold bind. rewrite Hr, Hmap.
    repeat split; constructor; assumption.
Qed.

(** Mapping [normalizeAppointment] over elements it accepts gives what
    it makes of each, in order. *)
Lemma mapM_normalizeAppointment_pairs {RT : Runtime} (items : list JsVal)
    (w : World) :
  Forall (fun a => exists n, normalizeAppointment a = inl n) items ->
  exists records,
    mapM (fun a => lift (normalizeAppointment a)) items w = (Ok records, w)
    /\ Forall2 (fun a r => normalizeAppointment a = inl r) items records.
Proof.
  induction 1 as [|a rest [n Hn] _ (records & Hmap & Hpairs)].
  - exists []. split; [reflexivity|constructor].
  - exists (n :: records). cbn [mapM]. unfold bind. rewrite Hn.
    cbn [lift]. unfold ret at 1. rewrite Hmap.
    split; [reflexivity|]. constructor; assumption.
Qed.

(** C1, as the code has it: for each list operation and each shape it
    takes its payload from, a response in that shape with N well-formed
    elements gives exactly N records, one per element and in order: the
    normalized customer record of each element for [getCustomers], what
    [normalizeAppointment] makes of each element for [getAppointments],
    and the elements themselves for [getTechnicians], [getChemicals] and
    [getBaitTypes].  [getCustomers] takes all four shapes; the other four
    take a bare array, the domain-named field and [success: true] with
    [data], and return the empty array for a [data] field that comes
    without a success flag. *)
Theorem list_operation_count {RT : Runtime} (op : ListOp) (shape : Shape)
    (res : JsVal) (items : list JsVal) (w w1 : World) :
  request "GET" (endpoint_of op) JNull w = (Ok res, w1) ->
  in_shape (field_of op) shape res items ->
  well_formed op items ->
  if accepts op shape then
    exists records,
      run_list_op op w = (Ok (JArr records), w1)
      /\ length records = length items
      /\ records_for op items records
  else run_list_op op w = (Ok (JArr []), w1).
Proof.
  intros Hreq Hshape Hwf.
  destruct op;
    cbn [run_list_op endpoint_of field_of accepts well_formed records_for]
      in *.
  - (* getCustomers *)
    unfold getCustomers, bind. rewrite Hreq.
    destruct (mapM_formatCustomer_pairs w1 Hwf)
      as (records & Hmap & Hpairs & Hall).
    assert (Hlen : length records = length items)
      by (symmetry; exact (Forall2_length Hpairs)).
    assert (Hpick : (truthy res && is_false (prop res "success"))%bool = false
                    /\ customersArray res = JArr items).
    { unfold customersArray.
      destruct shape; cbn [in_shape] in Hshape.
      - subst res. split; reflexivity.
      - destruct Hshape as (Hdata & Hflag & _).
        destruct (holder_is_object _ _ Hdata) as (Ht & Ha & _).
        rewrite Ht, Ha, Hflag, Hdata. split; reflexivity.
      - destruct Hshape as (Hnamed & Hdata & Hflag).
        destruct (holder_is_object _ _ Hnamed) as (Ht & Ha & _).
        rewrite Ht, Ha, Hflag, Hdata, Hnamed. split; reflexivity.
      - destruct Hshape as (Hflag & Hdata & _).
        destruct (holder_is_object _ _ Hdata) as (Ht & Ha & _).
        rewrite Ht, Ha, Hflag, Hdata. split; reflexivity. }
    destruct Hpick as [Hgo Hpick]. rewrite Hgo, Hpick. cbn [elements].
    rewrite Hmap. destruct shape; exists records;
      (split; [reflexivity|]); (split; [exact Hlen|]); split; assumption.
  - (* getTechnicians *)
    unfold getTechnicians, bind. rewrite Hreq.
    destruct shape; cbn [in_shape] in Hshape.
    + subst res. exists items. repeat split.
    + destruct Hshape as (Hdata & Hflag & Hnamed).
      destruct (holder_is_object _ _ Hdata) as (Ht & Ha & _).
      rewrite Ht, Ha, Hflag, Hnamed, andb_false_r. reflexivity.
    + destruct Hshape as (Hnamed & _).
      destruct (holder_is_object _ _ Hnamed) as (Ht & Ha & _).
      rewrite Ht, Ha, Hnamed. exists items. repeat split.
    + destruct Hshape as (Hflag & Hdata & Hnamed).
      destruct (holder_is_object _ _ Hdata) as (Ht & Ha & _).
      rewrite Ht, Ha, Hflag, Hdata, Hnamed, andb_false_r.
      exists items. repeat split.
  - (* getAppointments *)
    unfold getAppointments, bind. rewrite Hreq.
    assert (Hpick : appointmentsArray res =
                    if accepts (Appointments params) shape then JArr items
                    else JArr []).
    { unfold appointmentsArray.
      destruct shape; cbn [in_shape accepts] in *.
      - subst res. reflexivity.
      - destruct Hshape as (Hdata & Hflag & Hnamed).
        destruct (holder_is_object _ _ Hdata) as (Ht & Ha & _).
        rewrite Ht, Ha, Hflag, Hnamed. reflexivity.
      - destruct Hshape as (Hnamed & _).
        destruct (holder_is_object _ _ Hnamed) as (Ht & Ha & _).
        rewrite Ht, Ha, Hnamed. reflexivity.
      - destruct Hshape as (Hflag & Hdata & Hnamed).
        destruct (holder_is_object _ _ Hdata) as (Ht & Ha & _).
        rewrite Ht, Ha, Hflag, Hdata, Hnamed. reflexivity. }
    rewrite Hpick.
    destruct (mapM_normalizeAppointment_pairs w1 Hwf)
      as (records & Hmap & Hpairs).
    assert (Hlen : length records = length items)
      by (symmetry; exact (Forall2_length Hpairs)).
    destruct shape; cbn [accepts elements mapM]; try rewrite Hmap;
      try (exists records; split; [reflexivity|]; split; assumption).
    reflexivity.
  - (* getBaitTypes *)
    unfold getBaitTypes, try_catch, bind. rewrite Hreq.
    destruct shape; cbn [in_shape] in Hshape.
    + subst res. exists items. repeat split.
    + destruct Hshape as (Hdata & Hflag & Hnamed).
      destruct (holder_is_object _ _ Hdata) as (Ht & Ha & Hn).
      unfold opt_prop. rewrite Hn, Ha, Hflag, Hnamed. reflexivity.
    + destruct Hshape as (Hnamed & _).
      destruct (holder_is_object _ _ Hnamed) as (Ht & Ha & Hn).
      unfold opt_prop. rewrite Hn, Ha, Hnamed.
      exists items. destruct (is_true (prop res "success")); repeat split.
    + destruct Hshape as (Hflag & Hdata & Hnamed).
      destruct (holder_is_object _ _ Hdata) as (Ht & Ha & Hn).
      unfold opt_prop. rewrite Hn, Ha, Hflag, Hdata, Hnamed.
      exists items. repeat split.
  - (* getChemicals *)
    unfold getChemicals, bind. rewrite Hreq.
    destruct shape; cbn [in_shape] in Hshape.
    + subst res. exists items. repeat split.
    + destruct Hshape as (Hdata & Hflag & Hnamed).
      destruct (holder_is_object _ _ Hdata) as (Ht & Ha & _).
      rewrite Ht, Ha, Hflag, Hnamed, andb_false_r. reflexivity.
    + destruct Hshape as (Hnamed & _).
      destruct (holder_is_object _ _ Hnamed) as (Ht & Ha & _).
      rewrite Ht, Ha, Hnamed. exists items. repeat split.
    + destruct Hshape as (Hflag & Hdata & Hnamed).
      destruct (holder_is_object _ _ Hdata) as (Ht & Ha & _).
      rewrite Ht, Ha, Hflag, Hdata, Hnamed, andb_false_r.
      exists items. repeat split.
Qed.

Lemma is_false_flag (res : JsVal) :
  is_false (prop res "success") = true -> prop res "success" = JBool false.
Proof.
  destruct (prop res "success") as [| |[|]| | | |]; cbn; intros H;
    try discriminate; reflexivity.
Qed.

Lemma opt_prop_no_array (res : JsVal) (k : string) :
  isArray (prop res k) = false -> isArray (opt_prop res k) = false.
Proof. unfold opt_prop. destruct (nullish res); trivial. Qed.

(** The failure envelopes [request] builds carry [success: false] and no
    array under a domain-named field. *)
Lemma failure_envelopes_carry_no_list (op : ListOp) (status : N)
    (json : JsVal) (message : string) :
  (is_false (prop (http_failure status json) "success") = true
   /\ isArray (prop (http_failure status json) (field_of op)) = false)
  /\ (is_false (prop (network_failure message) "success") = true
      /\ isArray (prop (network_failure message) (field_of op)) = false).
Proof. destruct op; repeat split. Qed.

(** C2, as the code has it: a list operation returns the empty array, and
    does not raise, in each of these cases.  The response carries
    [success: false] and no array under the domain-named field of the
    operation (for [getCustomers]: whenever it carries [success: false]).
    The response matches none of the payload shapes: it is not an array
    and has no array under [data], under the domain-named field of the
    operation or, for [getBaitTypes], under [types]; what else it holds
    does not matter.  For the four operations other than [getCustomers],
    also when an array under [data] comes without a truthy [success]. *)
Theorem list_operation_empty {RT : Runtime} (op : ListOp) (res : JsVal)
    (w w1 : World) :
  request "GET" (endpoint_of op) JNull w = (Ok res, w1) ->
  (is_false (prop res "success") = true
   /\ (op = Customers \/ isArray (prop res (field_of op)) = false))
  \/ (isArray res = false
      /\ isArray (prop res "data") = false
      /\ isArray (prop res (field_of op)) = false
      /\ (op = BaitTypes -> isArray (prop res "types") = false))
  \/ (op <> Customers
      /\ isArray res = false
      /\ isArray (prop res (field_of op)) = false
      /\ truthy (prop res "success") = false) ->
  run_list_op op w = (Ok (JArr []), w1).
Proof.
  intros Hreq [[Hfail Hnamed] | [(Hbare & Hdata & Hnamed & Htypes)
                                | (Hop & Hbare & Hnamed & Hflag)]].
  - apply is_false_flag in Hfail.
    destruct (flagged_is_object _ Hfail) as (Ht & Ha & Hn).
    destruct op; cbn [run_list_op endpoint_of field_of] in *.
    + unfold getCustomers, bind. rewrite Hreq, Ht, Hfail. reflexivity.
    + destruct Hnamed as [Hop | Hnamed]; [discriminate|].
      unfold getTechnicians, bind.
      rewrite Hreq, Ht, Ha, Hnamed, Hfail, andb_false_r. reflexivity.
    + destruct Hnamed as [Hop | Hnamed]; [discriminate|].
      unfold getAppointments, appointmentsArray, bind.
      rewrite Hreq, Ht, Ha, Hnamed, Hfail. reflexivity.
    + destruct Hnamed as [Hop | Hnamed]; [discriminate|].
      unfold getBaitTypes, try_catch, bind, opt_prop.
      rewrite Hreq, Hn, Ha, Hnamed, Hfail. reflexivity.
    + destruct Hnamed as [Hop | Hnamed]; [discriminate|].
      unfold getChemicals, bind.
      rewrite Hreq, Ht, Ha, Hnamed, Hfail, andb_false_r. reflexivity.
  - destruct op; cbn [run_list_op endpoint_of field_of] in *.
    + unfold getCustomers, customersArray, bind.
      rewrite Hreq, Hbare, Hdata, Hnamed, !andb_false_r.
      destruct (truthy res && is_false (prop res "success"))%bool;
        reflexivity.
    + unfold getTechnicians, bind.
      rewrite Hreq, Hbare, Hdata, Hnamed, !andb_false_r.
      destruct (truthy res); cbn [negb]; [|reflexivity].
      destruct (is_false (prop res "success")); reflexivity.
    + unfold getAppointments, appointmentsArray, bind.
      rewrite Hreq, Hbare, Hdata, Hnamed, !andb_false_r. reflexivity.
    + unfold getBaitTypes, try_catch, bind.
      rewrite Hreq, Hbare, (opt_prop_no_array _ _ Hnamed), Hdata, Hnamed,
        (Htypes eq_refl), !andb_false_r. reflexivity.
    + unfold getChemicals, bind.
      rewrite Hreq, Hbare, Hdata, Hnamed, !andb_false_r.
      destruct (truthy res); cbn [negb]; [|reflexivity].
      destruct (is_false (prop res "success")); reflexivity.
  - assert (Hnot_true : is_true (opt_prop res "success") = false).
    { unfold opt_prop. destruct (nullish res); [reflexivity|].
      destruct (prop res "success") as [| |[|]| | | |]; cbn in Hflag |- *;
        try reflexivity; discriminate. }
    destruct op; cbn [run_list_op endpoint_of field_of] in *;
      [contradiction| | | |].
    + unfold getTechnicians, bind.
      rewrite Hreq, Hbare, Hnamed, Hflag, !andb_false_r.
      destruct (truthy res); cbn [negb andb]; [|reflexivity].
      destruct (is_false (prop res "success")); reflexivity.
    + unfold getAppointments, appointmentsArray, bind.
      rewrite Hreq, Hbare, Hnamed, Hflag, !andb_false_r. reflexivity.
    + unfold getBaitTypes, try_catch, bind.
      rewrite Hreq, Hbare, (opt_prop_no_array _ _ Hnamed), Hnot_true.
      reflexivity.
    + unfold getChemicals, bind.
      rewrite Hreq, Hbare, Hnamed, Hflag, !andb_false_r.
      destruct (truthy res); cbn [negb andb]; [|reflexivity].
      destruct (is_false (prop res "success")); reflexivity.
Qed.

(** ** The session across calls and restarts *)

Lemma loadStoredToken_run (w : World) :
  fst (loadStoredToken w) = Ok tt
  /\ disk (snd (loadStoredToken w)) = disk w
  /\ net (snd (loadStoredToken w)) = net w
  /\ sent (snd (loadStoredToken w)) = sent w
  /\ (hd false (disk_faults w) = true ->
      authToken (snd (loadStoredToken w)) = authToken w)
  /\ (hd false (disk_faults w) = false ->
      authToken (snd (loadStoredToken w)) =
      match disk w with
      | Some value => if truthy value then value else authToken w
      | None => authToken w
      end).
Proof.
  unfold loadStoredToken, try_catch, bind, AsyncStorage_getItem,
    assign_authToken, ret.
  destruct (disk_faults w) as [|[|] later]; cbn;
    repeat split; intros; try discriminate; try reflexivity;
    destruct (disk w) as [value|]; cbn; try reflexivity;
    destruct (truthy value); reflexivity.
Qed.

(** X1: a token survives a restart.  When the storage calls go through, a
    non-empty token stored with [setAuthToken] is the token in memory after
    a restart and [loadStoredToken], and after [clearAuthToken] a restart
    and the loader leave no token. *)
Theorem token_survives_restart (w : World) (t : string) :
  t <> "" ->
  hd false (disk_faults w) = false ->
  hd false (tl (disk_faults w)) = false ->
  authToken
    (snd (loadStoredToken (cold_start (snd (setAuthToken (JStr t) w))))) =
    JStr t
  /\ authToken
       (snd (loadStoredToken (cold_start (snd (clearAuthToken w))))) = JNull.
Proof.
  intros Ht Hfirst Hsecond.
  assert (Htruthy : truthy (JStr t) = true).
  { cbn. destruct (t =? "") eqn:E; [|reflexivity].
    apply String.eqb_eq in E. contradiction. }
  split.
  - destruct (setAuthToken_run (JStr t) w)
      as (_ & _ & _ & _ & Hfaults & Hdisk & _).
    specialize (Hdisk Hfirst). rewrite Htruthy in Hdisk.
    destruct (loadStoredToken_run (cold_start (snd (setAuthToken (JStr t) w))))
      as (_ & _ & _ & _ & _ & Hload).
    cbn [cold_start disk disk_faults authToken] in Hload.
    rewrite Hfaults, Hdisk, Htruthy in Hload. exact (Hload Hsecond).
  - destruct (clearAuthToken_run w) as (_ & _ & _ & _ & Hfaults & Hdisk & _).
    specialize (Hdisk Hfirst).
    destruct (loadStoredToken_run (cold_start (snd (clearAuthToken w))))
      as (_ & _ & _ & _ & _ & Hload).
    cbn [cold_start disk disk_faults authToken] in Hload.
    rewrite Hfaults, Hdisk in Hload. exact (Hload Hsecond).
Qed.

(** X2: the loader fails open.  [loadStoredToken] never raises and sends
    nothing; when the storage read rejects, or the entry is missing, the
    token in memory stays as it was, and the storage entry is never
    changed. *)
Theorem loadStoredToken_fails_open (w : World) :
  fst (loadStoredToken w) = Ok tt
  /\ sent (snd (loadStoredToken w)) = sent w
  /\ disk (snd (loadStoredToken w)) = disk w
  /\ (hd false (disk_faults w) = true \/ disk w = None ->
      authToken (snd (loadStoredToken w)) = authToken w).
Proof.
  destruct (loadStoredToken_run w) as (Hok & Hdisk & _ & Hsent & Hbad & Hgood).
  repeat split; try assumption.
  intros [Hfault | Hnone].
  - exact (Hbad Hfault).
  - destruct (hd false (disk_faults w)) eqn:E.
    + exact (Hbad eq_refl).
    + rewrite (Hgood eq_refl), Hnone. reflexivity.
Qed.

(** X3: requests follow the token.  Whatever the storage does, the request
    sent right after [setAuthToken(t)] with a non-empty [t] carries
    [Authorization: Bearer t], and the request sent right after
    [clearAuthToken()] carries no Authorization header. *)
Theorem request_follows_token {RT : Runtime} (method endpoint : string)
    (body : JsVal) (w : World) (t : string) :
  t <> "" ->
  let after m := snd (request method endpoint body (snd (m w))) in
  (exists rq, sent (after (setAuthToken (JStr t))) = (sent w ++ [rq])%list
              /\ header "Authorization" rq = Some ("Bearer " ++ t))
  /\ (exists rq, sent (after clearAuthToken) = (sent w ++ [rq])%list
                 /\ header "Authorization" rq = None).
Proof.
  intros Ht after. subst after. cbv beta.
  assert (Htruthy : truthy (JStr t) = true).
  { cbn. destruct (t =? "") eqn:E; [|reflexivity].
    apply String.eqb_eq in E. contradiction. }
  split.
  - destruct (setAuthToken_run (JStr t) w) as (_ & Htok & _ & Hsent & _).
    rewrite request_run. eexists. cbn [snd after_fetch sent].
    rewrite Hsent, Htok. split; [reflexivity|].
    unfold header, outgoing, request_headers. cbn [rq_headers].
    rewrite Htruthy. reflexivity.
  - destruct (clearAuthToken_run w) as (_ & Htok & _ & Hsent & _).
    rewrite request_run. eexists. cbn [snd after_fetch sent].
    rewrite Hsent, Htok. split; reflexivity.
Qed.

(** ** More on login *)

Lemma truthy_prop_object (v : JsVal) (k : string) :
  truthy (prop v k) = true -> nullish v = false /\ truthy v = true.
Proof.
  destruct v as [| | | |s| |]; cbn; intros H; try discriminate;
    split; try reflexivity.
  destruct s; [|reflexivity].
  destruct (k =? "length"); discriminate.
Qed.

(** X4: a login the backend does not accept changes nothing.  When the
    response to POST /login has no truthy [success], [login] returns that
    response as it is, the token in memory and in storage are untouched,
    and the login request is the only one sent. *)
Theorem login_failure_passthrough {RT : Runtime} (email password : JsVal)
    (w w1 : World) (result : JsVal) :
  request "POST" "/login"
    (JObj [("email", email); ("password", password)]) w = (Ok result, w1) ->
  truthy (opt_prop result "success") = false ->
  login email password w = (Ok result, w1)
  /\ authToken w1 = authToken w
  /\ disk w1 = disk w
  /\ length (sent w1) = S (length (sent w)).
Proof.
  intros Hreq Hfail. split.
  - unfold login, bind at 1. rewrite Hreq.
    destruct (truthy result) eqn:Ht; cbn [negb]; [|reflexivity].
    assert (Hnn : nullish result = false).
    { destruct result; try discriminate; reflexivity. }
    unfold opt_prop in Hfail. rewrite Hnn in Hfail.
    unfold member, bind. rewrite Hnn. unfold ret at 1. rewrite Hfail.
    reflexivity.
  - rewrite request_run in Hreq. injection Hreq as _ <-.
    cbn [after_fetch authToken disk sent]. repeat split.
    rewrite length_app. cbn. lia.
Qed.

(** X5: a verified login keeps the token and answers by role.  When the
    response is successful with a token and the verification reports
    success, [login] returns the answer for the role of the response, the
    token of the response is the one held afterwards, and two requests
    were sent.  The token stays held also when the role is not recognised
    and the answer is the Invalid credentials failure. *)
Theorem login_verified {RT : Runtime} (email password : JsVal)
    (w w1 w3 : World) (result verification : JsVal) :
  request "POST" "/login"
    (JObj [("email", email); ("password", password)]) w = (Ok result, w1) ->
  truthy (prop result "success") = true ->
  truthy (prop result "token") = true ->
  verifyTokenWithBackend (prop result "token")
    (snd (setAuthToken (prop result "token") w1)) = (Ok verification, w3) ->
  truthy (prop verification "success") = true ->
  login email password w = (Ok (login_by_role result), w3)
  /\ authToken w3 = prop result "token"
  /\ length (sent w3) = S (S (length (sent w)))
  /\ (is_str (prop result "role") "admin" = false ->
      is_str (prop result "role") "tech" = false ->
      is_str (prop result "role") "customer" = false ->
      login_by_role result =
      JObj [("success", JBool false); ("error", JStr "Invalid credentials")]).
Proof.
  intros Hreq Hsuccess Htoken Hverify Hverified.
  destruct (truthy_prop_object _ _ Hsuccess) as [Hnn Htr].
  destruct (truthy_prop_object _ _ Hverified) as [Vnn _].
  destruct (setAuthToken_run (prop result "token") w1)
    as (Sok & Stok & _ & Ssent & _).
  assert (Hw3 : w3 = after_fetch (verify_request (prop result "token"))
                       (snd (setAuthToken (prop result "token") w1))).
  { rewrite verify_run in Hverify. now injection Hverify as _ <-. }
  assert (Hw1 : w1 = after_fetch
                       (outgoing "POST" "/login"
                          (JObj [("email", email); ("password", password)])
                          (authToken w)) w).
  { rewrite request_run in Hreq. now injection Hreq as _ <-. }
  split; [|split; [|split]].
  - unfold login, bind at 1. rewrite Hreq, Htr. cbn [negb].
    unfold member, bind. rewrite Hnn. unfold ret at 1. rewrite Hsuccess.
    cbn [negb]. unfold ret at 1.
    unfold login_check_token. rewrite Htoken. unfold bind.
    destruct (setAuthToken (prop result "token") w1) as [r2 w2] eqn:Hset.
    cbn [fst snd] in *. subst r2.
    unfold getCurrentToken. rewrite Stok, Htoken, Hverify.
    unfold member. rewrite Vnn. unfold ret at 1. rewrite Hverified.
    reflexivity.
  - rewrite Hw3. cbn [after_fetch authToken]. exact Stok.
  - rewrite Hw3. cbn [after_fetch sent]. rewrite Ssent, Hw1.
    cbn [after_fetch sent]. rewrite !length_app. cbn. lia.
  - intros Ha Ht Hc. unfold login_by_role. rewrite Ha, Ht, Hc. reflexivity.
Qed.

(** X6: a successful response without a token is not verified.  When the
    response has a truthy [success] and no truthy [token], [login] sends
    no verification request, leaves the token in memory as it was, and
    answers by role: an admin response is reported as a success whose
    [token] is the missing one. *)
Theorem login_without_token {RT : Runtime} (email password : JsVal)
    (w w1 : World) (result : JsVal) :
  request "POST" "/login"
    (JObj [("email", email); ("password", password)]) w = (Ok result, w1) ->
  truthy (prop result "success") = true ->
  truthy (prop result "token") = false ->
  login email password w = (Ok (login_by_role result), w1)
  /\ authToken w1 = authToken w
  /\ length (sent w1) = S (length (sent w))
  /\ (is_str (prop result "role") "admin" = true ->
      login_by_role result =
      JObj [("success", JBool true); ("role", JStr "admin");
            ("token", prop result "token")]).
Proof.
  intros Hreq Hsuccess Htoken.
  destruct (truthy_prop_object _ _ Hsuccess) as [Hnn Htr].
  split; [|split; [|split]].
  - unfold login, bind at 1. rewrite Hreq, Htr. cbn [negb].
    unfold member, bind. rewrite Hnn. unfold ret at 1. rewrite Hsuccess.
    cbn [negb]. unfold ret at 1.
    unfold login_check_token. rewrite Htoken. reflexivity.
  - rewrite request_run in Hreq. injection Hreq as _ <-. reflexivity.
  - rewrite request_run in Hreq. injection Hreq as _ <-.
    cbn [after_fetch sent]. rewrite length_app. cbn. lia.
  - intros Ha. unfold login_by_role. rewrite Ha. reflexivity.
Qed.

(** X7: a verification that answers [null] makes [login] raise.  When the
    response is successful with a token and the verification endpoint
    answers the JSON value [null], [login] raises instead of returning,
    and the token of the response is still held afterwards. *)
Theorem login_null_verification_raises {RT : Runtime}
    (email password : JsVal) (w w1 w3 : World) (result : JsVal) :
  request "POST" "/login"
    (JObj [("email", email); ("password", password)]) w = (Ok result, w1) ->
  truthy (prop result "success") = true ->
  truthy (prop result "token") = true ->
  verifyTokenWithBackend (prop result "token")
    (snd (setAuthToken (prop result "token") w1)) = (Ok JNull, w3) ->
  (exists message, fst (login email password w) = Throw message)
  /\ authToken (snd (login email password w)) = prop result "token".
Proof.
  intros Hreq Hsuccess Htoken Hverify.
  destruct (truthy_prop_object _ _ Hsuccess) as [Hnn Htr].
  destruct (setAuthToken_run (prop result "token") w1)
    as (Sok & Stok & _).
  assert (Hw3 : w3 = after_fetch (verify_request (prop result "token"))
                       (snd (setAuthToken (prop result "token") w1))).
  { rewrite verify_run in Hverify. now injection Hverify as _ <-. }
  assert (Hlogin : exists message,
             login email password w = (Throw message, w3)).
  { unfold login, bind at 1. rewrite Hreq, Htr. cbn [negb].
    unfold member, bind. rewrite Hnn. unfold ret at 1. rewrite Hsuccess.
    cbn [negb]. unfold ret at 1.
    unfold login_check_token. rewrite Htoken. unfold bind.
    destruct (setAuthToken (prop result "token") w1) as [r2 w2] eqn:Hset.
    cbn [fst snd] in *. subst r2.
    unfold getCurrentToken. rewrite Stok, Htoken, Hverify.
    unfold member. cbn [nullish]. unfold throw. eexists. reflexivity. }
  destruct Hlogin as [message Hlogin]. rewrite Hlogin. cbn [fst snd].
  split; [eauto|]. rewrite Hw3. cbn [after_fetch authToken]. exact Stok.
Qed.

(** ** More on the list operations *)

Lemma js_coalesce_default (a b : JsVal) :
  nullish b = false -> nullish (js_coalesce a b) = false.
Proof. unfold js_coalesce. destruct (nullish a) eqn:E; congruence. Qed.

Lemma formatCustomer_record {RT : Runtime} (c : JsVal) (w : World) :
  nullish c = false ->
  exists r, formatCustomer c w = (Ok r, w) /\ customer_record r.
Proof.
  intros Hc. unfold formatCustomer, member, bind. rewrite Hc.
  eexists. split; [reflexivity|].
  unfold customer_record.
  assert (Hmaps : exists maps,
             (if isArray (prop c "maps") then prop c "maps" else JArr []) =
             JArr maps).
  { destruct (isArray (prop c "maps")) eqn:E; [|eauto].
    exists (elements (prop c "maps")). now apply isArray_elements. }
  destruct Hmaps as [maps Hmaps]. rewrite Hmaps.
  do 7 eexists. split; [reflexivity|].
  repeat split; try (apply js_coalesce_default; reflexivity).
  unfold js_coalesce.
  destruct (nullish (if nullish (prop c "complianceValidUntil")
                     then prop c "compliance_valid_until"
                     else prop c "complianceValidUntil")) eqn:E;
    [discriminate|].
  intros Hundef. rewrite Hundef in E. discriminate.
Qed.

Lemma formatCustomer_raises {RT : Runtime} (c : JsVal) (w : World) :
  nullish c = true -> exists message, formatCustomer c w = (Throw message, w).
Proof.
  intros Hc. unfold formatCustomer, member, bind, throw. rewrite Hc. eauto.
Qed.

(** Mapping [formatCustomer] gives records only, raises exactly when an
    element is [null] or [undefined], and leaves the world alone. *)
Lemma mapM_formatCustomer {RT : Runtime} (items : list JsVal) (w : World) :
  (Forall (fun c => nullish c = false) items ->
   exists records, mapM formatCustomer items w = (Ok records, w)
                   /\ Forall customer_record records
                   /\ length records = length items)
  /\ (Exists (fun c => nullish c = true) items ->
      exists message, mapM formatCustomer items w = (Throw message, w)).
Proof.
  induction items as [|c rest [IHok IHbad]].
  - split.
    + intros _. exists []. repeat split. constructor.
    + intros H. inversion H.
  - split.
    + intros H. inversion H as [|? ? Hc Hrest]; subst.
      destruct (formatCustomer_record c w Hc) as (r & Hr & Hrec).
      destruct (IHok Hrest) as (records & Hmap & Hall & Hlen).
      exists (r :: records). cbn [mapM]. unfold bind. rewrite Hr, Hmap.
      repeat split; [constructor; assumption | cbn; now rewrite Hlen].
    + intros H. cbn [mapM]. unfold bind.
      destruct (nullish c) eqn:Hc.
      * destruct (formatCustomer_raises c w Hc) as [message Hm].
        rewrite Hm. eauto.
      * destruct (formatCustomer_record c w Hc) as (r & Hr & _).
        rewrite Hr. inversion H as [? ? Hbad | ? ? Hbad]; subst;
          [congruence|].
        destruct (IHbad Hbad) as [message Hm]. rewrite Hm. eauto.
Qed.

Lemma nullish_split (items : list JsVal) :
  Forall (fun c => nullish c = false) items
  \/ Exists (fun c => nullish c = true) items.
Proof.
  induction items as [|c rest [IH|IH]].
  - left. constructor.
  - destruct (nullish c) eqn:Hc.
    + right. now constructor.
    + left. now constructor.
  - right. now constructor 2.
Qed.

(** X8: the customer contract.  Every record [getCustomers] returns has
    the seven fields [customerId], [customerName], [email], [address],
    [telephone], [complianceValidUntil], [maps] in that order, with a
    string [customerId], an array [maps], and no [null] or [undefined]
    name, email, address or telephone. *)
Theorem getCustomers_records {RT : Runtime} (w w' : World) (v : JsVal) :
  getCustomers w = (Ok v, w') ->
  exists records, v = JArr records /\ Forall customer_record records.
Proof.
  unfold getCustomers, bind. rewrite request_run.
  match goal with
  | |- context [if ?c then _ else _] => destruct c
  end.
  - intros H. injection H as <- _. exists []. split; [reflexivity|constructor].
  - set (items := elements (customersArray (request_answer (net w)))).
    set (w1 := after_fetch _ w).
    destruct (nullish_split items) as [Hgood | Hbad].
    + destruct (proj1 (mapM_formatCustomer items w1) Hgood)
        as (records & Hmap & Hall & _).
      rewrite Hmap. intros H. injection H as <- _. eauto.
    + destruct (proj2 (mapM_formatCustomer items w1) Hbad) as [message Hm].
      rewrite Hm. discriminate.
Qed.

(** X9: a [null] element makes [getCustomers] raise.  When the response
    is a bare array with an element that is [null] or [undefined],
    [getCustomers] raises instead of returning a list. *)
Theorem getCustomers_null_element {RT : Runtime} (w w1 : World)
    (items : list JsVal) :
  request "GET" "/customers" JNull w = (Ok (JArr items), w1) ->
  Exists (fun c => nullish c = true) items ->
  exists message, getCustomers w = (Throw message, w1).
Proof.
  intros Hreq Hbad. unfold getCustomers, bind. rewrite Hreq.
  cbn [truthy andb prop is_false customersArray isArray elements].
  replace (is_false (if "success" =? "length"
                     then JNum (num_of_N (N.of_nat (length items)))
                     else JUndefined)) with false by reflexivity.
  cbn [elements].
  destruct (proj2 (mapM_formatCustomer items w1) Hbad) as [message Hm].
  rewrite Hm. eauto.
Qed.

(** X10: a list operation returns an array or raises.  For every network
    outcome, what a list operation returns is an array; [getTechnicians],
    [getBaitTypes] and [getChemicals] never raise, and only [getCustomers]
    and [getAppointments] can, on an element they cannot map. *)
Theorem list_operation_returns_array {RT : Runtime} (op : ListOp)
    (w : World) :
  match fst (run_list_op op w) with
  | Ok v => isArray v = true
  | Throw _ => op = Customers \/ exists params, op = Appointments params
  end.
Proof.
  destruct op; cbn [run_list_op].
  - unfold getCustomers, bind. rewrite request_run.
    match goal with
    | |- context [if ?c then _ else _] => destruct c
    end; [reflexivity|].
    set (items := elements (customersArray (request_answer (net w)))).
    set (w1 := after_fetch _ w).
    destruct (nullish_split items) as [Hgood | Hbad].
    + destruct (proj1 (mapM_formatCustomer items w1) Hgood)
        as (records & -> & _). reflexivity.
    + destruct (proj2 (mapM_formatCustomer items w1) Hbad) as [message ->].
      now left.
  - assert (H : exists items w', getTechnicians w = (Ok (JArr items), w')).
    { unfold getTechnicians, bind. rewrite request_run.
      split_tests; found_array. }
    destruct H as (items & w' & ->). reflexivity.
  - unfold getAppointments, bind. rewrite request_run.
    match goal with
    | |- context [mapM ?f ?l ?w0] => destruct (mapM f l w0) as [[ys|e] w'']
    end; cbn [fst]; [reflexivity|]. right. eauto.
  - destruct (getBaitTypes_array w) as (items & w' & ->). reflexivity.
  - destruct (getChemicals_array w) as (items & w' & ->). reflexivity.
Qed.

(** ** More on station logging *)

(** X11: what [logBaitStation] sends.  With [null] or [undefined] data it
    raises before anything is sent.  With any other data it returns, and
    it sends at least one and at most three requests, each a POST whose
    payload has [stationType] BS and [isVisitSummary] false, whatever the
    caller put under those names. *)
Theorem logBaitStation_requests {RT : Runtime} (data : JsVal) (w : World) :
  (nullish data = true ->
   exists message, logBaitStation data w = (Throw message, w))
  /\ (nullish data = false ->
      exists v new,
        fst (logBaitStation data w) = Ok v
        /\ sent (snd (logBaitStation data w)) = (sent w ++ new)%list
        /\ 1 <= length new <= 3
        /\ Forall station_payload new).
Proof.
  split.
  - intros Hdata. unfold logBaitStation, member, bind, throw.
    rewrite Hdata. eauto.
  - intros Hdata. rewrite logBaitStation_run by exact Hdata. cbv zeta.
    assert (Hstation : forall endpoint token,
               station_payload
                 (outgoing "POST" endpoint (JObj (stationData data)) token)).
    { intros. split; [reflexivity|]. eexists. split; [reflexivity|].
      split; reflexivity. }
    assert (Hfallback : forall endpoint token,
               station_payload
                 (outgoing "POST" endpoint (fallbackData (stationData data))
                    token)).
    { intros. split; [reflexivity|]. eexists. split; [reflexivity|].
      split; reflexivity. }
    split_tests; cbn [fst snd after_fetch sent].
    + do 2 eexists. split; [reflexivity|]. split; [reflexivity|].
      split; [cbn; lia|]. repeat constructor; apply Hstation.
    + do 2 eexists. split; [reflexivity|].
      split; [now rewrite <- app_assoc|].
      split; [cbn; lia|]. repeat constructor; apply Hstation.
    + do 2 eexists. split; [reflexivity|].
      split; [now rewrite <- !app_assoc|].
      split; [cbn; lia|].
      repeat constructor; try apply Hstation; apply Hfallback.
Qed.

(** ** Counts, statistics and guarded reads *)

(** X12: the pending-count fallback is never reached.  Whatever the first
    endpoint answers, [getTotalRequestsToday] sends that one request only:
    a successful answer is returned as it is, and any other answer ends in
    the failure envelope with count 0 and the message of the unbound
    name, because the fallback call raises before it sends anything.
    [getTotalRequestsCreatedToday] does the same. *)
Theorem total_requests_single_call {RT : Runtime}
    (unbound : string -> string) (w w1 : World) (result : JsVal) :
  request "GET" "/customer-requests/today-total-count" JNull w
  = (Ok result, w1) ->
  getTotalRequestsToday unbound w =
    (Ok (if truthy (opt_prop result "success") then result
         else JObj [("success", JBool false); ("count", zero);
                    ("error",
                     JStr (unbound "getTodayCustomerRequestsCount"))]),
     w1)
  /\ getTotalRequestsCreatedToday unbound w = getTotalRequestsToday unbound w
  /\ length (sent w1) = S (length (sent w)).
Proof.
  intros Hreq.
  assert (H : getTotalRequestsToday unbound w =
    (Ok (if truthy (opt_prop result "success") then result
         else JObj [("success", JBool false); ("count", zero);
                    ("error",
                     JStr (unbound "getTodayCustomerRequestsCount"))]),
     w1)).
  { unfold getTotalRequestsToday, try_catch, bind. rewrite Hreq.
    destruct (truthy (opt_prop result "success")); reflexivity. }
  split; [exact H|]. split.
  - unfold getTotalRequestsCreatedToday, try_catch. rewrite H. reflexivity.
  - rewrite request_run in Hreq. injection Hreq as _ <-.
    cbn [after_fetch sent]. rewrite length_app. cbn. lia.
Qed.

(** X13: customer statistics always come with a list.  For every network
    outcome [getCustomerStats] returns a value whose [stats] field is an
    array and whose [success] field is not [false]: failures and
    unexpected shapes are replaced by [{stats: []}]. *)
Theorem getCustomerStats_has_stats {RT : Runtime} (w : World) :
  exists v w',
    getCustomerStats w = (Ok v, w')
    /\ isArray (prop v "stats") = true
    /\ is_false (prop v "success") = false.
Proof.
  unfold getCustomerStats, bind. rewrite request_run.
  set (res := request_answer (net w)).
  destruct (negb (truthy res) || is_false (prop res "success"))%bool eqn:E1.
  - do 2 eexists. split; [reflexivity|]. split; reflexivity.
  - apply orb_false_elim in E1. destruct E1 as [_ E1].
    destruct (truthy (prop res "stats") && isArray (prop res "stats"))%bool
      eqn:E2.
    + apply andb_prop in E2. destruct E2 as [_ E2].
      do 2 eexists. split; [reflexivity|]. split; assumption.
    + do 2 eexists. split; [reflexivity|]. split; reflexivity.
Qed.

(** X14: a missing identifier is answered locally.  Called with a falsy
    identifier ([undefined], [null], the empty string, zero), the guarded
    reads return their default and send nothing: the world is left exactly
    as it was. *)
Theorem missing_identifier_sends_nothing {RT : Runtime} (id : JsVal)
    (w : World) :
  truthy id = false ->
  getCustomerVisits id w = (Ok (JArr []), w)
  /\ getAppointmentsForCustomer id w = (Ok (JArr []), w)
  /\ getRevenueByCustomer id w =
     (Ok (JObj [("total_revenue", zero); ("appointment_count", zero)]), w)
  /\ getVisitByAppointmentId id w =
     (Ok (JObj [("success", JBool false); ("visitId", JNull)]), w).
Proof.
  intros Hid.
  unfold getCustomerVisits, getAppointmentsForCustomer,
    getRevenueByCustomer, getVisitByAppointmentId.
  rewrite Hid. repeat split.
Qed.

(** X15: visit lists are arrays, and are read only from [success: true].
    For every identifier and network outcome [getCustomerVisits] and
    [getCustomerActualVisits] return an array and never raise; when the
    response does not carry [success === true] the array is empty, even
    if the response has visits. *)
Theorem customer_visits_are_arrays {RT : Runtime} (id : JsVal) (w : World) :
  (exists items w', getCustomerVisits id w = (Ok (JArr items), w'))
  /\ (exists items w', getCustomerActualVisits id w = (Ok (JArr items), w'))
  /\ (is_true (prop (request_answer (net w)) "success") = false ->
      fst (getCustomerVisits id w) = Ok (JArr [])
      /\ fst (getCustomerActualVisits id w) = Ok (JArr [])).
Proof.
  unfold getCustomerVisits, getCustomerActualVisits, try_catch, bind.
  destruct (truthy id); cbn [negb].
  - rewrite !request_run.
    set (res := request_answer (net w)).
    split; [|split].
    + split_tests; found_array.
    + split_tests; found_array.
    + intros ->. rewrite !orb_true_r. split; reflexivity.
  - split; [|split]; [unfold ret; eauto | unfold ret; eauto |].
    intros _. split; reflexivity.
Qed.

(** X16: [getAppointmentsForCustomer] does not check the [appointments]
    field.  With a truthy identifier it returns an array, except that a
    truthy [appointments] field of the response is returned as it is, also
    when it is not an array. *)
Theorem getAppointmentsForCustomer_unchecked {RT : Runtime}
    (id response : JsVal) (w w1 : World) :
  truthy id = true ->
  request "GET" ("/appointments?customerId=" ++ ToString id) JNull w
  = (Ok response, w1) ->
  exists v,
    getAppointmentsForCustomer id w = (Ok v, w1)
    /\ (isArray response = false ->
        truthy (opt_prop response "appointments") = true ->
        v = prop response "appointments")
    /\ (isArray response = true
        \/ truthy (opt_prop response "appointments") = false ->
        isArray v = true).
Proof.
  intros Hid Hreq.
  unfold getAppointmentsForCustomer, try_catch, bind. rewrite Hid.
  cbn [negb]. rewrite Hreq.
  destruct (isArray response) eqn:Ea.
  - eexists. split; [reflexivity|]. split; [discriminate|]. intros _. exact Ea.
  - destruct (truthy (opt_prop response "appointments")) eqn:Et.
    + eexists. split; [reflexivity|]. split; [reflexivity|].
      intros [H|H]; discriminate.
    + destruct (truthy (opt_prop response "success")
                && isArray (prop response "data"))%bool eqn:Ed.
      * apply andb_prop in Ed. destruct Ed as [_ Ed].
        eexists. split; [reflexivity|]. split; [discriminate|].
        intros _. exact Ed.
      * eexists. split; [reflexivity|]. split; [discriminate|]. reflexivity.
Qed.

(** X17: revenue always has a value.  For every identifier and network
    outcome [getRevenueByCustomer] returns a truthy value and never
    raises, and for a response with [success: false] (every failure
    envelope of [request]) that value is the zero revenue. *)
Theorem getRevenueByCustomer_has_value {RT : Runtime} (id : JsVal)
    (w : World) :
  (exists v w', getRevenueByCustomer id w = (Ok v, w') /\ truthy v = true)
  /\ (is_false (prop (request_answer (net w)) "success") = true ->
      fst (getRevenueByCustomer id w) =
      Ok (JObj [("total_revenue", zero); ("appointment_count", zero)])).
Proof.
  unfold getRevenueByCustomer, bind.
  destruct (truthy id); cbn [negb].
  - rewrite request_run. set (res := request_answer (net w)). split.
    + destruct (negb (truthy res) || is_false (prop res "success"))%bool.
      * do 2 eexists. split; reflexivity.
      * do 2 eexists. split; [reflexivity|]. unfold js_or.
        destruct (truthy (prop res "data")) eqn:E; [exact E|reflexivity].
    + intros ->. rewrite orb_true_r. reflexivity.
  - split; [do 2 eexists; split; reflexivity|]. reflexivity.
Qed.

(** X18: a dashboard that fails is filled in.  For every network outcome
    [getCustomerDashboard] returns and never raises; the result is either
    the response itself, with a truthy [success], or a failure with a
    truthy [error], [customer] and [nextAppointment] [null] and an empty
    [upcomingAppointments] list. *)
Theorem getCustomerDashboard_filled {RT : Runtime} (w : World) :
  exists v w',
    getCustomerDashboard w = (Ok v, w')
    /\ ((v = request_answer (net w) /\ truthy (prop v "success") = true)
        \/ (exists error,
              v = JObj [("success", JBool false); ("error", error);
                        ("customer", JNull); ("nextAppointment", JNull);
                        ("upcomingAppointments", JArr [])]
              /\ truthy error = true)).
Proof.
  unfold getCustomerDashboard, try_catch, bind. rewrite request_run.
  set (res := request_answer (net w)).
  destruct (truthy (opt_prop res "success")) eqn:E.
  - do 2 eexists. split; [reflexivity|]. left. split; [reflexivity|].
    unfold opt_prop in E. destruct (nullish res); [discriminate|exact E].
  - do 2 eexists. split; [reflexivity|]. right. eexists.
    split; [reflexivity|]. unfold js_or.
    destruct (truthy (opt_prop res "error")) eqn:Ee; [exact Ee|reflexivity].
Qed.

(** X19: [getVisitIdByAppointmentId] never raises and sends no headers.
    For every network outcome it returns [null] or a truthy visit
    identifier, and the one request it sends has no header at all, so no
    Authorization header even while a token is held. *)
Theorem getVisitIdByAppointmentId_bare {RT : Runtime} (id : JsVal)
    (w : World) :
  exists v rq,
    fst (getVisitIdByAppointmentId id w) = Ok v
    /\ (v = JNull \/ truthy v = true)
    /\ sent (snd (getVisitIdByAppointmentId id w)) = (sent w ++ [rq])%list
    /\ rq_headers rq = []
    /\ header "Authorization" rq = None
    /\ rq_url rq = API_BASE_URL ++ "/visits/by-appointment/" ++ ToString id.
Proof.
  unfold getVisitIdByAppointmentId, try_catch, bind, fetch, res_json,
    res_text, lift, member.
  destruct (net w) as [|[status [text|message]|message] rest];
    cbn [fst snd bind throw ret];
    try (do 2 eexists; repeat split; now left).
  unfold bind, ret, throw.
  destruct (JSON_parse text) as [data|e];
    [|do 2 eexists; repeat split; now left].
  destruct (nullish data); [do 2 eexists; repeat split; now left|].
  destruct (truthy (prop data "success")); cbn [andb];
    [|do 2 eexists; repeat split; now left].
  destruct (truthy (prop data "visitId")) eqn:E;
    do 2 eexists; repeat split; solve [now left | now right].
Qed.

(** X20: the service log lookup.  For every visit identifier and network
    outcome [getServiceLogByVisitId] returns and never raises, and it
    sends one, two or three requests.  The result either has a truthy
    [success] and a truthy [log], or it is the failure Service log not
    found. *)
Theorem getServiceLogByVisitId_found_or_not {RT : Runtime} (visitId : JsVal)
    (w : World) :
  exists v new,
    fst (getServiceLogByVisitId visitId w) = Ok v
    /\ sent (snd (getServiceLogByVisitId visitId w)) = (sent w ++ new)%list
    /\ 1 <= length new <= 3
    /\ ((truthy (prop v "success") = true /\ truthy (prop v "log") = true)
        \/ v = JObj [("success", JBool false);
                     ("error", JStr "Service log not found")]).
Proof.
  unfold getServiceLogByVisitId, try_catch, bind, ret. rewrite request_run.
  set (r1 := request_answer (net w)). cbv beta iota.
  destruct (truthy (opt_prop r1 "success") && truthy (prop r1 "log"))%bool
    eqn:E1.
  - apply andb_prop in E1. destruct E1 as [Es El].
    unfold opt_prop in Es. destruct (nullish r1); [discriminate|].
    do 2 eexists. split; [reflexivity|]. split; [reflexivity|].
    split; [cbn; lia|]. left. split; assumption.
  - rewrite request_run. cbv beta iota.
    match goal with
    | |- context [request_answer ?n] =>
        lazymatch n with
        | net w => fail
        | _ => set (r2 := request_answer n)
        end
    end.
    destruct (truthy (opt_prop r2 "success") && truthy (prop r2 "report"))%bool
      eqn:E2.
    + apply andb_prop in E2. destruct E2 as [_ Er].
      do 2 eexists. split; [reflexivity|].
      split; [cbn [snd after_fetch sent]; now rewrite <- app_assoc|].
      split; [cbn; lia|]. left. split; [reflexivity|exact Er].
    + rewrite request_run. cbv beta iota.
      match goal with
      | |- context [if ?c then _ else _] => destruct c
      end; cbv beta iota.
      * do 2 eexists. split; [reflexivity|].
        split; [cbn [snd after_fetch sent]; now rewrite <- !app_assoc|].
        split; [cbn; lia|]. left. split; reflexivity.
      * do 2 eexists. split; [reflexivity|].
        split; [cbn [snd after_fetch sent]; now rewrite <- !app_assoc|].
        split; [cbn; lia|]. right. reflexivity.
Qed.

(** X21: [debugAppointment] answers with the debug endpoint.  It sends two
    requests, the second to the path /api/debug/appointment/ under the
    base URL that already ends in /api, and it always returns the answer
    to the second: the answer to the first is never returned. *)
Theorem debugAppointment_second_answer {RT : Runtime} (id : JsVal)
    (w : World) :
  exists first second w1 w2,
    request "GET" ("/appointments/" ++ ToString id) JNull w = (Ok first, w1)
    /\ request "GET" ("/api/debug/appointment/" ++ ToString id) JNull w1
       = (Ok second, w2)
    /\ debugAppointment id w = (Ok second, w2)
    /\ map rq_url (sent w2) =
       (map rq_url (sent w)
        ++ [(API_BASE_URL ++ "/appointments/" ++ ToString id)%string;
            (API_BASE_URL ++ "/api/debug/appointment/"
             ++ ToString id)%string])%list.
Proof.
  do 4 eexists. split; [apply request_run|]. split; [apply request_run|].
  split.
  - unfold debugAppointment, try_catch, bind. rewrite !request_run.
    reflexivity.
  - cbn [after_fetch sent]. rewrite <- app_assoc, map_app. reflexivity.
Qed.

(** ** Payloads of the write operations *)

Lemma assoc_obj_put (k k' : string) (v : JsVal)
    (fs : list (string * JsVal)) :
  assoc k (obj_put k' v fs) = if k =? k' then Some v else assoc k fs.
Proof.
  induction fs as [|[k0 v0] rest IH]; cbn.
  - destruct (k =? k'); reflexivity.
  - destruct (k' =? k0) eqn:E0; cbn.
    + apply String.eqb_eq in E0. subst k0.
      destruct (k =? k'); reflexivity.
    + destruct (k =? k0) eqn:E1.
      * apply String.eqb_eq in E1. subst k0.
        rewrite String.eqb_sym in E0. rewrite E0. reflexivity.
      * exact IH.
Qed.

Lemma assoc_obj_remove (k k' : string) (fs : list (string * JsVal)) :
  assoc k (obj_remove k' fs) = if k =? k' then None else assoc k fs.
Proof.
  induction fs as [|[k0 v0] rest IH]; cbn.
  - destruct (k =? k'); reflexivity.
  - destruct (k' =? k0) eqn:E0; cbn.
    + apply String.eqb_eq in E0. subst k0. rewrite IH.
      destruct (k =? k'); reflexivity.
    + rewrite IH. destruct (k =? k0) eqn:E1; [|reflexivity].
      apply String.eqb_eq in E1. subst k0.
      rewrite String.eqb_sym in E0. rewrite E0. reflexivity.
Qed.

Lemma obj_remove_absent (k : string) (fs : list (string * JsVal)) :
  assoc k fs = None -> obj_remove k fs = fs.
Proof.
  induction fs as [|[k0 v0] rest IH]; cbn; [reflexivity|].
  destruct (k =? k0); [discriminate|]. intros H. now rewrite IH.
Qed.

(** X22: the payload of [createAppointment].  For an object (or array)
    payload it sends one POST to /appointments and returns the answer of
    [request] as it is.  In the body sent, [status] is the given status or
    scheduled; each of the seven optional fields is the given value or
    [null], never [undefined]; [servicePrice] is present exactly when the
    caller gave a value other than [undefined] (a price of zero is sent);
    [compliance_valid_until] is present exactly when it is truthy.  For a
    payload that is not an object the call raises before anything is
    sent. *)
Theorem createAppointment_payload {RT : Runtime} (payload : JsVal)
    (w : World) :
  (typeof_object payload = true /\ nullish payload = false ->
   exists fields,
     createAppointment payload w =
       request "POST" "/appointments" (JObj fields) w
     /\ defaulted (prop payload "status") (JStr "scheduled")
          (prop (JObj fields) "status")
     /\ Forall (fun k => defaulted (prop payload k) JNull
                           (prop (JObj fields) k))
          ["customerId"; "legacyCustomerKey"; "specialServiceSubtype";
           "otherPestName"; "appointmentCategory"; "insecticideDetails";
           "disinfection_details"]
     /\ assoc "servicePrice" fields =
        (if is_undefined (prop payload "servicePrice") then None
         else Some (prop payload "servicePrice"))
     /\ assoc "compliance_valid_until" fields =
        (if truthy (prop payload "compliance_valid_until")
         then Some (prop payload "compliance_valid_until") else None))
  /\ (typeof_object payload = false \/ nullish payload = true ->
      exists message, createAppointment payload w = (Throw message, w)).
Proof.
  split.
  - intros [Hobj Hnn]. exists (finalAppointmentData payload).
    split.
    { unfold createAppointment, bind. rewrite Hobj, Hnn. cbn [negb orb].
      rewrite request_run. reflexivity. }
    unfold defaulted, finalAppointmentData, put_when, appointmentData, js_or.
    destruct (truthy (prop payload "disinfection_details")) eqn:E1;
      destruct (truthy (prop payload "insecticideDetails")) eqn:E2;
      destruct (is_undefined (prop payload "servicePrice")) eqn:E3;
      destruct (truthy (prop payload "compliance_valid_until")) eqn:E4;
      cbn; rewrite ?E1, ?E2;
      (split; [reflexivity|]);
      (split;
       [ repeat (constructor; [cbn; rewrite ?E1, ?E2; reflexivity|]);
         constructor
       | split; reflexivity ]).
  - intros H. unfold createAppointment, throw.
    destruct H as [H|H]; rewrite H; cbn [negb orb];
      rewrite ?orb_true_r; eauto.
Qed.

(** X23: [updateAppointment] with an object.  For an object with a truthy
    [id] it sends one PUT to /appointments/ followed by the identifier and
    returns the answer of [request]; the body is the object without its
    [id], every other field as given; a second argument is ignored. *)
Theorem updateAppointment_object {RT : Runtime}
    (fields : list (string * JsVal)) (updates : JsVal) (w : World) :
  truthy (prop (JObj fields) "id") = true ->
  exists body,
    updateAppointment (JObj fields) updates w =
      request "PUT" ("/appointments/" ++ ToString (prop (JObj fields) "id"))
        (JObj body) w
    /\ prop (JObj body) "id" = JUndefined
    /\ (forall k, k <> "id" -> prop (JObj body) k = prop (JObj fields) k).
Proof.
  intros Hid. exists (obj_remove "id" fields). split; [|split].
  - unfold updateAppointment, member, bind. cbn [isString typeof_object nullish].
    unfold ret at 1. rewrite Hid. reflexivity.
  - cbn [prop]. rewrite assoc_obj_remove. reflexivity.
  - intros k Hk. cbn [prop]. rewrite assoc_obj_remove.
    destruct (k =? "id") eqn:E; [|reflexivity].
    apply String.eqb_eq in E. contradiction.
Qed.

(** X24: what [updateAppointment] refuses.  A number, a boolean or
    [undefined] is answered with Invalid appointment data format; a
    string, object or array without a truthy identifier (the empty string,
    an object with no [id], every array) is answered with Appointment ID is
    required; in both cases nothing is sent.  [null] makes the call
    raise. *)
Theorem updateAppointment_refusals {RT : Runtime} (data updates : JsVal)
    (w : World) :
  (isString data = false -> typeof_object data = false ->
   updateAppointment data updates w =
   (Ok (JObj [("success", JBool false);
              ("error", JStr "Invalid appointment data format")]), w))
  /\ (isString data = true \/ (typeof_object data = true /\ data <> JNull) ->
      truthy (if isString data then data else prop data "id") = false ->
      updateAppointment data updates w =
      (Ok (JObj [("success", JBool false);
                 ("error", JStr "Appointment ID is required")]), w))
  /\ (forall items, truthy (prop (JArr items) "id") = false)
  /\ (data = JNull ->
      exists message, updateAppointment data updates w = (Throw message, w)).
Proof.
  split; [|split; [|split]].
  - intros Hs Ho. unfold updateAppointment. rewrite Hs, Ho. reflexivity.
  - intros Hkind Hid. unfold updateAppointment.
    destruct (isString data) eqn:Hs.
    + rewrite Hid. reflexivity.
    + destruct Hkind as [H|[Ho Hnull]]; [discriminate|]. rewrite Ho.
      assert (Hnn : nullish data = false).
      { destruct data; try discriminate; try reflexivity. congruence. }
      unfold member, bind. rewrite Hnn. unfold ret at 1. rewrite Hid.
      reflexivity.
  - reflexivity.
  - intros ->. unfold updateAppointment, member, bind, throw. cbn. eauto.
Qed.

(** X25: the two calling forms of [updateAppointment] agree.  For a
    non-empty string identifier and fields with no [id] among them,
    calling with the object that has the identifier under [id] does what
    calling with the identifier and the fields as two arguments does: the
    same request, the same result. *)
Theorem updateAppointment_forms_agree {RT : Runtime} (id : string)
    (fields : list (string * JsVal)) (w : World) :
  id <> "" ->
  assoc "id" fields = None ->
  updateAppointment (JObj (("id", JStr id) :: fields)) JUndefined w =
  updateAppointment (JStr id) (JObj fields) w.
Proof.
  intros Hid Hfields.
  assert (Htruthy : truthy (JStr id) = true).
  { cbn. destruct (id =? "") eqn:E; [|reflexivity].
    apply String.eqb_eq in E. contradiction. }
  unfold updateAppointment, member, bind.
  cbn [isString typeof_object nullish prop assoc String.eqb Ascii.eqb
       Bool.eqb andb].
  change (js_or (JObj fields) (JObj [])) with (JObj fields).
  unfold ret at 1. cbn [obj_remove String.eqb Ascii.eqb Bool.eqb andb].
  rewrite (obj_remove_absent _ _ Hfields), Htruthy. reflexivity.
Qed.

Lemma formatChemical_named (chem : JsVal) :
  truthy (prop (formatChemical chem) "name") = true ->
  chemical_record (formatChemical chem).
Proof.
  unfold formatChemical, chemical_record, js_or.
  destruct (isString chem) eqn:Es.
  - cbn. intros H. do 3 eexists. split; [reflexivity|].
    split; [exact H|]. split; right; reflexivity.
  - destruct (truthy chem && typeof_object chem)%bool.
    + cbn [prop assoc String.eqb Ascii.eqb Bool.eqb andb].
      intros H. do 3 eexists. split; [reflexivity|]. split; [exact H|].
      split.
      * destruct (truthy (prop chem "concentration")) eqn:E1;
          cbv iota; rewrite ?E1; [left; reflexivity|].
        destruct (truthy (prop chem "concentrationPercent")) eqn:E2;
          cbv iota; rewrite ?E2; [left; reflexivity|right; reflexivity].
      * destruct (truthy (prop chem "volume")) eqn:E1;
          cbv iota; rewrite ?E1; [left; reflexivity|].
        destruct (truthy (prop chem "volumeMl")) eqn:E2;
          cbv iota; rewrite ?E2; [left; reflexivity|right; reflexivity].
    + cbn. discriminate.
Qed.

Lemma formattedChemicals_records {RT : Runtime} (items : list JsVal) :
  Forall chemical_record
    (js_filter (fun chem => truthy (prop chem "name"))
       (map formatChemical items))
  /\ length (js_filter (fun chem => truthy (prop chem "name"))
               (map formatChemical items)) <= length items.
Proof.
  unfold js_filter. induction items as [|chem rest [IH Hlen]].
  - split; [constructor|reflexivity].
  - cbn [map filter length].
    destruct (truthy (prop (formatChemical chem) "name")) eqn:E.
    + split; [constructor; [now apply formatChemical_named|exact IH]|].
      cbn. lia.
    + split; [exact IH|lia].
Qed.

(** X26: [logService] returns a success or raises.  With a
    [chemicalsUsed] that is a list or is missing, it sends one POST to
    /log-service; when the answer has a truthy [success] it returns the
    answer, and otherwise it raises with the [error] of the answer, or
    with Failed to save service when the answer has no truthy [error].
    With any other [chemicalsUsed] it raises before anything is sent. *)
Theorem logService_success_or_raise {RT : Runtime}
    (serviceData : list (string * JsVal)) (w : World) :
  (isArray (prop (JObj serviceData) "chemicalsUsed") = true
   \/ nullish (prop (JObj serviceData) "chemicalsUsed") = true ->
   exists body answer w1,
     request "POST" "/log-service" body w = (Ok answer, w1)
     /\ logService serviceData w =
        if truthy (opt_prop answer "success") then (Ok answer, w1)
        else (Throw (ToString (if truthy (opt_prop answer "error")
                               then opt_prop answer "error"
                               else JStr "Failed to save service")), w1))
  /\ (isArray (prop (JObj serviceData) "chemicalsUsed") = false ->
      nullish (prop (JObj serviceData) "chemicalsUsed") = false ->
      exists message, logService serviceData w = (Throw message, w)).
Proof.
  unfold logService, bind.
  destruct (prop (JObj serviceData) "chemicalsUsed") as [| |b|x|s|items|fs]
    eqn:Echem; cbn [formattedChemicals isArray nullish];
    (split;
     [ intros [H|H]; try discriminate H
     | intros H1 H2; try discriminate; unfold throw; eauto ]).
  all: unfold ret at 1; do 3 eexists; (split; [apply request_run|]);
    rewrite request_run;
    match goal with
    | |- context [if ?c then _ else _] => destruct c
    end; reflexivity.
Qed.

(** X27: the body [logService] sends.  When [chemicalsUsed] is a list,
    the request is a POST whose body has under [chemicalsUsed] a list of
    chemicals with the three fields [name], [concentration], [volume] and
    a truthy name each, no longer than the list given; the four optional
    fields are the given value or [null]; every other field is as given. *)
Theorem logService_body {RT : Runtime} (serviceData : list (string * JsVal))
    (items : list JsVal) (w : World) :
  prop (JObj serviceData) "chemicalsUsed" = JArr items ->
  exists rq body chemicals,
    sent (snd (logService serviceData w)) = (sent w ++ [rq])%list
    /\ rq_method rq = "POST"
    /\ rq_url rq = API_BASE_URL ++ "/log-service"
    /\ rq_body rq = Some body
    /\ prop body "chemicalsUsed" = JArr chemicals
    /\ Forall chemical_record chemicals
    /\ length chemicals <= length items
    /\ Forall (fun k => defaulted (prop (JObj serviceData) k) JNull
                          (prop body k))
         ["insecticideDetails"; "otherPestName"; "disinfection_details";
          "work_type"]
    /\ (forall k,
          k <> "chemicalsUsed" -> k <> "insecticideDetails" ->
          k <> "otherPestName" -> k <> "disinfection_details" ->
          k <> "work_type" ->
          prop body k = prop (JObj serviceData) k).
Proof.
  intros Hchem. destruct (formattedChemicals_records items) as [Hall Hlen].
  unfold logService, bind. rewrite Hchem. cbn [formattedChemicals].
  unfold ret at 1. rewrite request_run.
  match goal with
  | |- context [if ?c then _ else _] => destruct c
  end; cbn [snd after_fetch sent throw ret];
    (do 3 eexists; split; [reflexivity|]; split; [reflexivity|];
     split; [reflexivity|]; split; [reflexivity|];
     split; [cbn [prop]; rewrite !assoc_obj_put; reflexivity|];
     split; [exact Hall|]; split; [exact Hlen|];
     split;
     [ repeat (constructor;
               [unfold defaulted; cbn [prop]; rewrite !assoc_obj_put;
                reflexivity|]);
       constructor
     | intros k H1 H2 H3 H4 H5; cbn [prop]; rewrite !assoc_obj_put;
       repeat match goal with
              | Hk : k <> ?lit |- context [k =? ?lit] =>
                  let E := fresh "E" in
                  destruct (k =? lit) eqn:E;
                  [apply String.eqb_eq in E; contradiction|]
              end;
       reflexivity ]).
Qed.

(** X28: the two kinds of /log payload differ.  The payload
    [logVisitSummary] posts to /log has [isVisitSummary] true, no [action],
    and station totals that are the given ones or zero; the payload
    [logBaitStation] posts to /log as a last resort has [isVisitSummary]
    false and the action station-log. *)
Theorem log_payloads_differ {RT : Runtime} (visit station : JsVal)
    (w : World) :
  nullish visit = false ->
  exists rq body,
    sent (snd (logVisitSummary visit w)) = (sent w ++ [rq])%list
    /\ rq_method rq = "POST"
    /\ rq_url rq = API_BASE_URL ++ "/log"
    /\ rq_body rq = Some body
    /\ prop body "isVisitSummary" = JBool true
    /\ prop body "action" = JUndefined
    /\ truthy (prop body "workType") = true
    /\ defaulted (opt_prop (prop visit "stationData") "totalStations") zero
         (prop body "totalStations")
    /\ defaulted (opt_prop (prop visit "stationData") "loggedStations") zero
         (prop body "loggedStations")
    /\ prop (fallbackData (stationData station)) "isVisitSummary" =
       JBool false
    /\ prop (fallbackData (stationData station)) "action" =
       JStr "station-log".
Proof.
  intros Hvisit. unfold logVisitSummary, member, bind. rewrite Hvisit.
  unfold ret at 1. rewrite request_run. cbn [snd after_fetch sent].
  do 2 eexists. split; [reflexivity|]. split; [reflexivity|].
  split; [reflexivity|]. split; [reflexivity|].
  split; [reflexivity|]. split; [reflexivity|].
  split.
  { cbn. unfold js_or. destruct (truthy (prop visit "workType")) eqn:E;
      [exact E|reflexivity]. }
  split; [reflexivity|]. split; [reflexivity|]. split; reflexivity.
Qed.

(** ** The complete-visit fallback *)

(** X29: when [logCompleteVisit] falls back to /log.  With valid dates and
    a first answer that carries [success: false], the error text is the
    [error] of the answer or Save failed.  If that text contains neither
    404 nor Not Found, the call raises Save failed: followed by the text
    and sends nothing more.  If it does, the summary is posted to /log
    with [isVisitSummary] true; a successful answer gives a success with
    the message Visit saved via fallback, any other answer raises the
    same Save failed error. *)
Theorem logCompleteVisit_fallback {RT : Runtime}
    (toISOString : JsVal -> string + string)
    (visitSummary : list (string * JsVal)) (stations : list JsVal)
    (w w1 : World) (answer : JsVal) (started ended : string) :
  toISOString (prop (JObj visitSummary) "startTime") = inl started ->
  toISOString (prop (JObj visitSummary) "endTime") = inl ended ->
  request "POST" "/visits/log-complete"
    (JObj [("visitSummary", JObj visitSummary);
           ("stations", JArr stations);
           ("action", JStr "complete-visit")]) w = (Ok answer, w1) ->
  is_false (prop answer "success") = true ->
  let text :=
    ToString (if truthy (prop answer "error") then prop answer "error"
              else JStr "Save failed") in
  let failure :=
    Throw ("Save failed: "
           ++ (if text =? "" then "Failed to save visit" else text)) in
  (includes "404" text || includes "Not Found" text = false ->
   logCompleteVisit toISOString visitSummary stations w = (failure, w1))
  /\ (includes "404" text || includes "Not Found" text = true ->
      exists second w2,
        request "POST" "/log" (visitData visitSummary stations) w1
        = (Ok second, w2)
        /\ prop (visitData visitSummary stations) "isVisitSummary" =
           JBool true
        /\ logCompleteVisit toISOString visitSummary stations w =
           if truthy (opt_prop second "success") then
             (Ok (JObj [("success", JBool true);
                        ("visitId",
                         if truthy (prop second "visitId")
                         then prop second "visitId"
                         else prop second "logId");
                        ("message", JStr "Visit saved via fallback")]), w2)
           else (failure, w2)).
Proof.
  intros Hstart Hend Hreq Hfalse text failure.
  assert (Hflag : prop answer "success" = JBool false)
    by now apply is_false_flag.
  destruct (flagged_is_object _ Hflag) as (Ht & _ & _).
  assert (Hrun :
    logCompleteVisit toISOString visitSummary stations w =
    if (includes "404" text || includes "Not Found" text)%bool then
      match request "POST" "/log" (visitData visitSummary stations) w1 with
      | (Ok second, w2) =>
          if truthy (opt_prop second "success") then
            (Ok (JObj [("success", JBool true);
                       ("visitId",
                        if truthy (prop second "visitId")
                        then prop second "visitId"
                        else prop second "logId");
                       ("message", JStr "Visit saved via fallback")]), w2)
          else (failure, w2)
      | (Throw _, w2) => (failure, w2)
      end
    else (failure, w1)).
  { unfold logCompleteVisit, bind, try_catch. rewrite Hstart, Hend.
    cbn [lift]. unfold ret at 1 2. rewrite Hreq, Ht, Hflag.
    cbn [negb is_true is_false]. unfold throw at 1, js_or at 1 2 3.
    fold text.
    destruct (includes "404" text || includes "Not Found" text)%bool;
      [|reflexivity].
    rewrite request_run.
    match goal with
    | |- context [truthy (opt_prop ?a "success")] =>
        destruct (truthy (opt_prop a "success"))
    end; reflexivity. }
  rewrite Hrun. split.
  - intros ->. reflexivity.
  - intros ->. do 2 eexists. split; [apply request_run|].
    split.
    { unfold visitData. cbn [prop]. rewrite !assoc_obj_put. reflexivity. }
    rewrite request_run. reflexivity.
Qed.

(** *** Spreading an answer *)

Lemma assoc_obj_define (k k' : string) (v : JsVal)
    (fs : list (string * JsVal)) :
  assoc k (obj_define k' v fs) = if k =? k' then Some v else assoc k fs.
Proof.
  induction fs as [|[k0 v0] rest IH]; cbn.
  - destruct (k =? k'); reflexivity.
  - destruct (k' =? k0) eqn:E0; cbn.
    + apply String.eqb_eq in E0. subst k0.
      destruct (k =? k'); reflexivity.
    + destruct (index_before k' k0); cbn.
      * destruct (k =? k'); reflexivity.
      * destruct (k =? k0) eqn:E1; [|exact IH].
        apply String.eqb_eq in E1. subst k0.
        rewrite String.eqb_sym in E0. rewrite E0. reflexivity.
Qed.

Lemma assoc_define_own_entries (k : string) (fs : list (string * JsVal)) :
  forall seen base,
    assoc k (fold_left (fun acc kv => obj_define (fst kv) (snd kv) acc)
               (own_entries seen fs) base) =
    if existsb (String.eqb k) seen then assoc k base
    else match assoc k fs with
         | Some v => Some v
         | None => assoc k base
         end.
Proof.
  induction fs as [|[k0 v0] rest IH]; intros seen base; cbn.
  - destruct (existsb (String.eqb k) seen); reflexivity.
  - destruct (existsb (String.eqb k0) seen) eqn:Hseen0.
    + rewrite IH. destruct (existsb (String.eqb k) seen) eqn:Hseen;
        [reflexivity|].
      destruct (k =? k0) eqn:E; [|reflexivity].
      apply String.eqb_eq in E. subst k0. congruence.
    + cbn. rewrite IH. cbn [existsb fst snd]. rewrite assoc_obj_define.
      destruct (k =? k0) eqn:E; cbn [orb].
      * apply String.eqb_eq in E. subst k0. rewrite Hseen0. reflexivity.
      * reflexivity.
Qed.

Lemma obj_define_new (k : string) (v : JsVal) (fs : list (string * JsVal)) :
  array_index k = None -> assoc k fs = None ->
  obj_define k v fs = (fs ++ [(k, v)])%list.
Proof.
  intros Hplain. induction fs as [|[k0 v0] rest IH]; cbn; [reflexivity|].
  destruct (k =? k0); [discriminate|]. intros Hnew.
  unfold index_before. rewrite Hplain, (IH Hnew). reflexivity.
Qed.

Lemma own_entries_distinct (fs : list (string * JsVal)) :
  forall seen,
    NoDup (map fst fs) ->
    (forall k, In k (map fst fs) -> existsb (String.eqb k) seen = false) ->
    own_entries seen fs = fs.
Proof.
  induction fs as [|[k0 v0] rest IH]; intros seen Hdistinct Hnew; cbn;
    [reflexivity|].
  cbn [map fst] in Hdistinct, Hnew. inversion Hdistinct as [|? ? Hout Hrest].
  subst. rewrite (Hnew k0 (or_introl eq_refl)). f_equal.
  apply IH; [exact Hrest|]. intros k Hk. cbn [existsb].
  rewrite (Hnew k (or_intror Hk)), orb_false_r.
  apply String.eqb_neq. intros ->. contradiction.
Qed.

Lemma define_new_entries (es : list (string * JsVal)) :
  forall base,
    NoDup (map fst es) ->
    Forall (fun kv => array_index (fst kv) = None) es ->
    (forall k, In k (map fst es) -> assoc k base = None) ->
    fold_left (fun acc kv => obj_define (fst kv) (snd kv) acc) es base =
    (base ++ es)%list.
Proof.
  induction es as [|[k0 v0] rest IH]; intros base Hdistinct Hplain Hnew;
    cbn [fold_left fst snd].
  - now rewrite app_nil_r.
  - cbn [map fst] in Hdistinct, Hnew.
    inversion Hdistinct as [|? ? Hout Hrest]. subst.
    inversion Hplain as [|? ? Hplain0 Hplain']. subst. cbn [fst] in Hplain0.
    rewrite IH; [|exact Hrest|exact Hplain'|].
    + rewrite (@obj_define_new k0 v0 base Hplain0 (Hnew k0 (or_introl eq_refl))).
      now rewrite <- app_assoc.
    + intros k Hk. rewrite assoc_obj_define.
      destruct (k =? k0) eqn:E; [|exact (Hnew k (or_intror Hk))].
      apply String.eqb_eq in E. subst k0. contradiction.
Qed.

(** X30: the first attempt of [logCompleteVisit].  A date that cannot be
    printed makes the call raise before anything is sent.  With valid
    dates, an answer with [success === true] is returned as it is; an
    answer whose [success] is neither [true] nor [false] is returned as
    [{success: true, ...answer}] when it has a truthy [visitId], and
    otherwise the call raises Save failed: Unexpected response format;
    none of these sends a second request.  The object returned has every
    property of the answer with the answer's value, a [success] of the
    answer included, and [success: true] when the answer has none; its
    keys are listed as an object lists them, array indices first:
    [success] comes first when the answer has distinct keys, none of them
    an array index or [success]. *)
Theorem logCompleteVisit_first_attempt {RT : Runtime}
    (toISOString : JsVal -> string + string)
    (visitSummary : list (string * JsVal)) (stations : list JsVal)
    (w : World) :
  (forall message,
     toISOString (prop (JObj visitSummary) "startTime") = inr message ->
     logCompleteVisit toISOString visitSummary stations w
     = (Throw message, w))
  /\ (forall started ended answer w1,
        toISOString (prop (JObj visitSummary) "startTime") = inl started ->
        toISOString (prop (JObj visitSummary) "endTime") = inl ended ->
        request "POST" "/visits/log-complete"
          (JObj [("visitSummary", JObj visitSummary);
                 ("stations", JArr stations);
                 ("action", JStr "complete-visit")]) w = (Ok answer, w1) ->
        (is_true (prop answer "success") = true ->
         logCompleteVisit toISOString visitSummary stations w
         = (Ok answer, w1))
        /\ (forall fields,
              answer = JObj fields ->
              is_true (prop answer "success") = false ->
              is_false (prop answer "success") = false ->
              logCompleteVisit toISOString visitSummary stations w =
              (if truthy (prop answer "visitId") then
                 (Ok (JObj (obj_merge [("success", JBool true)] fields)), w1)
               else
                 (Throw "Save failed: Unexpected response format", w1))
              /\ (forall k,
                    prop (JObj (obj_merge [("success", JBool true)] fields)) k
                    = match assoc k fields with
                      | Some v => v
                      | None =>
                          if k =? "success" then JBool true else JUndefined
                      end)
              /\ (NoDup (map fst fields) ->
                  Forall (fun kv => array_index (fst kv) = None) fields ->
                  assoc "success" fields = None ->
                  obj_merge [("success", JBool true)] fields =
                  ("success", JBool true) :: fields))).
Proof.
  split.
  - intros message Hstart. unfold logCompleteVisit, bind at 1.
    rewrite Hstart. reflexivity.
  - intros started ended answer w1 Hstart Hend Hreq.
    split.
    + intros Htrue.
      assert (Ht : truthy answer = true).
      { destruct answer as [| |b|x|s|items|fs]; cbn in Htrue;
          try discriminate; reflexivity. }
      unfold logCompleteVisit, bind, try_catch. rewrite Hstart, Hend.
      cbn [lift]. unfold ret at 1 2. rewrite Hreq, Ht, Htrue. reflexivity.
    + intros fields Hfields Hnt Hnf. split; [|split].
      * unfold logCompleteVisit, bind, try_catch. rewrite Hstart, Hend.
        cbn [lift]. unfold ret at 1 2. rewrite Hreq, Hnt, Hnf, Hfields.
        cbn [truthy negb].
        destruct (truthy (prop (JObj fields) "visitId")); reflexivity.
      * intros k. cbn [prop]. unfold obj_merge.
        rewrite assoc_define_own_entries. cbn [existsb assoc].
        destruct (assoc k fields); [reflexivity|].
        destruct (k =? "success"); reflexivity.
      * intros Hdistinct Hplain Hnone. unfold obj_merge.
        rewrite own_entries_distinct;
          [|exact Hdistinct|intros; reflexivity].
        apply (@define_new_entries fields [("success", JBool true)]);
          [exact Hdistinct|exact Hplain|].
        intros k Hk. cbn [assoc].
        destruct (k =? "success") eqn:E; [|reflexivity].
        apply String.eqb_eq in E. subst k.
        exfalso. clear - Hk Hnone.
        induction fields as [|[k0 v0] rest IH]; [contradiction|].
        cbn [assoc map fst In] in Hk, Hnone.
        destruct ("success" =? k0) eqn:E0; [discriminate|].
        destruct Hk as [Hk|Hk]; [|exact (IH Hnone Hk)].
        subst k0. rewrite String.eqb_refl in E0. discriminate.
Qed.

(** ** Examples *)

Section Examples.
#[local] Existing Instance exampleRuntime.

(** An HTML error page from a gateway, status 502: the payload is [null]
    and the failure envelope carries the generic message. *)
Lemma request_never_raises_witness :
  fst (request "GET" "/customers" JNull
         (world_with JNull
            [Responds 502 (BodyText "<html>Bad Gateway</html>")])) =
  Ok (JObj [("success", JBool false);
            ("error", JStr "Request failed with status 502");
            ("status", JNum (num_of_N 502));
            ("data", JNull)]).
Proof.
  refine (proj2
    (proj1 (proj2 (request_never_raises (RT := exampleRuntime)
                     "GET" "/customers" JNull
                     (world_with JNull
                        [Responds 502 (BodyText "<html>Bad Gateway</html>")])))
       502%N "<html>Bad Gateway</html>" [] eq_refl _)).
  right. exists "JSON Parse error: Unexpected token". reflexivity.
Defined.

(** Status 404 with the body [{error: Not found}]. *)
Lemma request_http_failure_witness :
  fst (request "GET" "/customers/7" JNull (answering 404 body_not_found)) =
  Ok (JObj [("success", JBool false);
            ("error", JStr "Not found");
            ("status", JNum (num_of_N 404));
            ("data", JObj [("error", JStr "Not found")])]).
Proof.
  exact (request_http_failure "GET" "/customers/7" JNull
           (answering 404 body_not_found)
           (rest := []) eq_refl eq_refl).
Defined.

(** C3 as stated fails when the [error] field is present and falsy: for
    status 404 and the body [{error: (empty string)}] the field is there,
    and the envelope carries the generic message instead of it. *)
Lemma request_falsy_error_field_counterexample :
  parsed_body body_empty_error = JObj [("error", JStr "")]
  /\ assoc "error" [("error", JStr "")] = Some (JStr "")
  /\ fst (request "GET" "/customers/7" JNull
            (answering 404 body_empty_error)) =
     Ok (JObj [("success", JBool false);
               ("error", JStr "Request failed with status 404");
               ("status", JNum (num_of_N 404));
               ("data", JObj [("error", JStr "")])])
  /\ JStr "Request failed with status 404" <> JStr "".
Proof.
  repeat split; try reflexivity. discriminate.
Qed.

(** Status 200 with the body [{success:true, role:admin, token:abc}]. *)
Lemma request_success_body_witness :
  fst (request "POST" "/login" (JObj [("email", JStr "a@b.c")])
         (world_with JNull [Responds 200 (BodyText body_login_admin)])) =
  Ok (JObj [("success", JBool true); ("role", JStr "admin");
            ("token", JStr "abc")]).
Proof.
  exact (proj1 (request_success_body "POST" "/login"
                  (JObj [("email", JStr "a@b.c")])
                  (world_with JNull [Responds 200 (BodyText body_login_admin)])
                  (rest := []) eq_refl eq_refl)).
Defined.

(** C9 as stated fails when the body parses to a value that is not an
    object but is truthy: status 200 with the body [5] returns the number
    5, not [{success:true}]. *)
Lemma request_number_body_counterexample :
  parsed_body body_five = JNum five
  /\ res_ok 200 = true
  /\ fst (request "GET" "/customers/stats" JNull
            (world_with JNull [Responds 200 (BodyText body_five)])) =
     Ok (JNum five)
  /\ JNum five <> JObj [("success", JBool true)].
Proof.
  repeat split; try reflexivity. discriminate.
Qed.

(** With the token abc held, a request for the customers carries
    [Authorization: Bearer abc]. *)
Lemma request_attaches_token_witness :
  exists rq,
    sent (snd (request "GET" "/customers" JNull
                 (world_with (JStr "abc") []))) = [rq]
    /\ rq_method rq = "GET"
    /\ rq_url rq = API_BASE_URL ++ "/customers"
    /\ header "Content-Type" rq = Some "application/json"
    /\ header "Authorization" rq = Some "Bearer abc".
Proof.
  exact (proj1 (request_attaches_token "GET" "/customers" JNull JNull
                  (world_with (JStr "abc") []))).
Defined.

(** C7 as stated fails for token verification: with the token abc held,
    the request [verifyTokenWithBackend] sends has no Authorization
    header. *)
Lemma verify_without_authorization_counterexample :
  truthy (authToken (world_with (JStr "abc") [])) = true
  /\ sent (snd (verifyTokenWithBackend (JStr "abc")
                  (world_with (JStr "abc") []))) =
     [verify_request (JStr "abc")]
  /\ header "Authorization" (verify_request (JStr "abc")) = None.
Proof.
  repeat split.
Qed.

(** Setting the empty string where the token abc is held and stored: no
    token is held afterwards and the storage entry is gone. *)
Lemma token_round_trip_witness :
  fst (setAuthToken (JStr "") (world_with (JStr "abc") [])) = Ok tt
  /\ fst (getCurrentToken
            (snd (setAuthToken (JStr "") (world_with (JStr "abc") [])))) =
     Ok (JStr "")
  /\ truthy (authToken
               (snd (setAuthToken (JStr "") (world_with (JStr "abc") [])))) =
     false
  /\ disk (snd (setAuthToken (JStr "") (world_with (JStr "abc") []))) =
     disk (snd (clearAuthToken (world_with (JStr "abc") [])))
  /\ (hd false (disk_faults (world_with (JStr "abc") [])) = false ->
      disk (snd (setAuthToken (JStr "") (world_with (JStr "abc") []))) = None).
Proof.
  exact (proj2 (proj2 (token_round_trip (world_with (JStr "abc") [])))
           (JStr "") eq_refl).
Defined.

(** Setting the empty string where the token abc is held: afterwards
    [getCurrentToken()] is the empty string, which is neither [null] nor
    [undefined], where a clear leaves [null]. *)
Lemma setAuthToken_empty_counterexample :
  fst (getCurrentToken
         (snd (setAuthToken (JStr "") (world_with (JStr "abc") [])))) =
  Ok (JStr "")
  /\ nullish (JStr "") = false
  /\ fst (getCurrentToken
            (snd (clearAuthToken (world_with (JStr "abc") [])))) = Ok JNull
  /\ JStr "" <> JNull.
Proof.
  repeat split. discriminate.
Qed.

(** A POST whose body refers to itself: [request] raises the TypeError of
    [JSON.stringify], nothing is sent and the waiting response is left
    unread. *)
Lemma request_unserializable_body_counterexample :
  request_any "POST" "/appointments"
    (Unserializable "Converting circular structure to JSON")
    (world_with JNull [Responds 200 (BodyText "{}")]) =
  (Throw "Converting circular structure to JSON",
   world_with JNull [Responds 200 (BodyText "{}")])
  /\ sent (snd (request_any "POST" "/appointments"
                  (Unserializable "Converting circular structure to JSON")
                  (world_with JNull [Responds 200 (BodyText "{}")]))) = []
  /\ net (snd (request_any "POST" "/appointments"
                 (Unserializable "Converting circular structure to JSON")
                 (world_with JNull [Responds 200 (BodyText "{}")]))) =
     [Responds 200 (BodyText "{}")].
Proof.
  repeat split.
Qed.

(** [getCustomers] on status 200 with the body [{data: [{id: 1}]}]: one
    record. *)
Lemma list_operation_count_witness :
  exists records,
    run_list_op Customers (answering 200 body_data_list) =
    (Ok (JArr records),
     snd (request "GET" "/customers" JNull (answering 200 body_data_list)))
    /\ length records = 1
    /\ records_for Customers [JObj [("id", JNum one)]] records.
Proof.
  refine (@list_operation_count exampleRuntime Customers DataField
            (JObj [("data", JArr [JObj [("id", JNum one)]])])
            [JObj [("id", JNum one)]] (answering 200 body_data_list)
            _ eq_refl _ _).
  - repeat split.
  - repeat constructor.
Defined.

(** [getAppointments()] on status 500 with a body that is not JSON: the
    failure envelope of [request] gives the empty array. *)
Lemma list_operation_empty_witness :
  run_list_op (Appointments JUndefined)
    (answering 500 "Internal Server Error") =
  (Ok (JArr []),
   snd (request "GET" "/appointments" JNull
          (answering 500 "Internal Server Error"))).
Proof.
  refine (@list_operation_empty exampleRuntime (Appointments JUndefined)
            (http_failure 500 JNull) (answering 500 "Internal Server Error")
            _ eq_refl _).
  left. split; [reflexivity|]. right. reflexivity.
Defined.

(** C2 as stated fails for [getTechnicians] on a response that carries
    both [success: false] and a [technicians] array: status 200 with the
    body [{success: false, technicians: [{id: 1}]}] gives that array, not
    the empty one. *)
Lemma getTechnicians_failure_with_list_counterexample :
  fst (request "GET" "/admin/technicians" JNull
         (answering 200 body_failure_with_technicians)) =
  Ok (JObj [("success", JBool false);
            ("technicians", JArr [JObj [("id", JNum one)]])])
  /\ is_false (prop (JObj [("success", JBool false);
                           ("technicians", JArr [JObj [("id", JNum one)]])])
                 "success") = true
  /\ fst (getTechnicians (answering 200 body_failure_with_technicians)) =
     Ok (JArr [JObj [("id", JNum one)]])
  /\ JArr [JObj [("id", JNum one)]] <> JArr [].
Proof.
  repeat split; try reflexivity. discriminate.
Qed.

(** Two endpoints that are missing and a third that accepts: all three are
    tried in order, the third with the extended payload, and its result is
    returned. *)
Lemma logBaitStation_fallback_chain_witness :
  fst (logBaitStation example_station station_world) =
    Ok (JObj [("success", JBool true)])
  /\ map rq_url (sent (snd (logBaitStation example_station station_world))) =
     [API_BASE_URL ++ "/station-logs"; API_BASE_URL ++ "/log-station";
      API_BASE_URL ++ "/log"]
  /\ map rq_body (sent (snd (logBaitStation example_station station_world))) =
     [Some (JObj (stationData example_station));
      Some (JObj (stationData example_station));
      Some (JObj (stationData example_station
                  ++ [("action", JStr "station-log");
                      ("serviceType", JStr "myocide")])%list)].
Proof.
  destruct (@logBaitStation_fallback_chain exampleRuntime
              example_station station_world eq_refl)
    as (r1 & w1 & H1 & H).
  rewrite request_run in H1. injection H1 as <- <-.
  cbn [truthy opt_prop nullish prop assoc request_answer net station_world
       world_with res_ok N.leb N.compare Pos.compare Pos.compare_cont andb
       http_failure String.eqb Ascii.eqb Bool.eqb] in H.
  destruct H as (r2 & w2 & H2 & H).
  rewrite request_run in H2. injection H2 as <- <-.
  cbn [truthy opt_prop nullish prop assoc request_answer net after_fetch tl
       res_ok N.leb N.compare Pos.compare Pos.compare_cont andb
       http_failure String.eqb Ascii.eqb Bool.eqb] in H.
  destruct H as (r3 & w3 & H3 & Hlog & Hsent & Hpayload).
  rewrite Hlog. cbn [fst snd]. rewrite Hsent.
  rewrite request_run in H3. injection H3 as <- _.
  repeat split.
Defined.

(** A login that is accepted with the token abc, then a verification that
    answers [{success: false}]: the login fails, no token is held and the
    storage entry is gone. *)
Lemma login_token_rejected_witness :
  fst (login (JStr "tech@example.com") (JStr "secret") login_world) =
    Ok (JObj [("success", JBool false);
              ("error", JStr "Token validation failed. Please try again.")])
  /\ authToken
       (snd (login (JStr "tech@example.com") (JStr "secret") login_world)) =
     JNull
  /\ disk (snd (login (JStr "tech@example.com") (JStr "secret") login_world)) =
     None.
Proof.
  destruct (@login_token_rejected exampleRuntime
              (JStr "tech@example.com") (JStr "secret") login_world _ _
              (JObj [("success", JBool true); ("role", JStr "admin");
                     ("token", JStr "abc")])
              (JObj [("success", JBool false)])
              eq_refl eq_refl eq_refl eq_refl eq_refl eq_refl)
    as (w' & Hlogin & Htoken & Hdisk).
  rewrite Hlogin. cbn [fst snd].
  unfold getCurrentToken in Htoken. cbn [fst] in Htoken.
  injection Htoken as Htoken.
  repeat split; [exact Htoken | exact (Hdisk eq_refl)].
Defined.

(** With the bait types answered as [{success: true, types: [Brodifacoum]}]
    [getBaitTypes()] returns the one type and [getBaitTypeNames()] returns
    the empty list. *)
Lemma name_helpers_return_empty_witness :
  fst (getBaitTypes (answering 200 body_types)) =
    Ok (JArr [JStr "Brodifacoum"])
  /\ fst (getBaitTypeNames (answering 200 body_types)) =
     Ok (JArr []).
Proof.
  split; [reflexivity|].
  exact (proj1 (name_helpers_return_empty (RT := exampleRuntime)
                  (answering 200 body_types))).
Defined.

End Examples.

(** ** Examples for the further properties *)

Section MoreExamples.
#[local] Existing Instance widerRuntime.

(** C1 as stated fails for [getTechnicians] in two ways.  On a [data]
    field without a success flag, status 200 with the body
    [{data: [{id: 1}]}] carries one element and the operation returns no
    record.  On a shape it takes, status 200 with the body
    [{technicians: [{id: 1}]}], the record it returns is the element as
    received, its [id] still the number 1, where [getCustomers] makes the
    string identifier of the same element. *)
Lemma getTechnicians_data_field_counterexample :
  res_ok 200 = true
  /\ fst (request "GET" "/admin/technicians" JNull
            (answering 200 body_data_list)) =
     Ok (JObj [("data", JArr [JObj [("id", JNum one)]])])
  /\ fst (getTechnicians (answering 200 body_data_list)) = Ok (JArr [])
  /\ length (@nil JsVal) <> length [JObj [("id", JNum one)]]
  /\ fst (getTechnicians (answering 200 body_technicians)) =
     Ok (JArr [JObj [("id", JNum one)]])
  /\ prop (JObj [("id", JNum one)]) "id" <> JStr "1"
  /\ fst (formatCustomer (JObj [("id", JNum one)])
            (answering 200 body_technicians)) =
     Ok (JObj [("customerId", JStr "1");
               ("customerName", JStr "Unknown Customer");
               ("email", JStr ""); ("address", JStr "");
               ("telephone", JStr ""); ("complianceValidUntil", JNull);
               ("maps", JArr [])]).
Proof.
  repeat split; try reflexivity; discriminate.
Qed.

(** The token abc, stored, is back in memory after a restart. *)
Lemma token_survives_restart_witness :
  authToken
    (snd (loadStoredToken
            (cold_start (snd (setAuthToken (JStr "abc")
                                (world_with JNull [])))))) = JStr "abc"
  /\ authToken
       (snd (loadStoredToken
               (cold_start (snd (clearAuthToken (world_with JNull []))))))
     = JNull.
Proof.
  refine (@token_survives_restart (world_with JNull []) "abc" _
            eq_refl eq_refl).
  discriminate.
Defined.

(** The request after [setAuthToken] of abc carries Bearer abc. *)
Lemma request_follows_token_witness :
  (exists rq,
     sent (snd (request "GET" "/customers" JNull
                  (snd (setAuthToken (JStr "abc") (world_with JNull [])))))
     = ([] ++ [rq])%list
     /\ header "Authorization" rq = Some "Bearer abc")
  /\ (exists rq,
        sent (snd (request "GET" "/customers" JNull
                     (snd (clearAuthToken (world_with JNull [])))))
        = ([] ++ [rq])%list
        /\ header "Authorization" rq = None).
Proof.
  refine (@request_follows_token widerRuntime "GET" "/customers" JNull
            (world_with JNull []) "abc" _).
  discriminate.
Defined.

(** A login answered 404 with [{error: Not found}]: the envelope comes
    back, and no token is held. *)
Lemma login_failure_passthrough_witness :
  fst (login (JStr "a@b.c") (JStr "x")
         (world_with JNull [Responds 404 (BodyText body_not_found)])) =
    Ok (JObj [("success", JBool false); ("error", JStr "Not found");
              ("status", JNum (num_of_N 404));
              ("data", JObj [("error", JStr "Not found")])])
  /\ authToken
       (snd (login (JStr "a@b.c") (JStr "x")
               (world_with JNull [Responds 404 (BodyText body_not_found)])))
     = JNull.
Proof.
  destruct (@login_failure_passthrough widerRuntime (JStr "a@b.c") (JStr "x")
              (world_with JNull [Responds 404 (BodyText body_not_found)]) _
              (JObj [("success", JBool false); ("error", JStr "Not found");
                     ("status", JNum (num_of_N 404));
                     ("data", JObj [("error", JStr "Not found")])])
              eq_refl eq_refl)
    as (Hlogin & Htoken & _).
  rewrite Hlogin. cbn [fst snd]. split; [reflexivity|exact Htoken].
Defined.

(** An admin login that is verified: success, and the token abc is held. *)
Lemma login_verified_witness :
  fst (login (JStr "a@b.c") (JStr "x") verified_login_world) =
    Ok (JObj [("success", JBool true); ("role", JStr "admin");
              ("token", JStr "abc")])
  /\ authToken (snd (login (JStr "a@b.c") (JStr "x") verified_login_world))
     = JStr "abc".
Proof.
  destruct (@login_verified widerRuntime (JStr "a@b.c") (JStr "x")
              verified_login_world _ _
              (JObj [("success", JBool true); ("role", JStr "admin");
                     ("token", JStr "abc")])
              (JObj [("success", JBool true)])
              eq_refl eq_refl eq_refl eq_refl eq_refl)
    as (Hlogin & Htoken & _).
  rewrite Hlogin. cbn [fst snd]. split; [reflexivity|exact Htoken].
Defined.

(** A login answered [{success: true}], with no token and no role: no
    verification is sent and the answer is Invalid credentials. *)
Lemma login_without_token_witness :
  fst (login (JStr "a@b.c") (JStr "x") (answering 200 body_success)) =
    Ok (JObj [("success", JBool false); ("error", JStr "Invalid credentials")])
  /\ length (sent (snd (login (JStr "a@b.c") (JStr "x")
                          (answering 200 body_success)))) = 1.
Proof.
  destruct (@login_without_token widerRuntime (JStr "a@b.c") (JStr "x")
              (answering 200 body_success) _
              (JObj [("success", JBool true)]) eq_refl eq_refl eq_refl)
    as (Hlogin & _ & Hsent & _).
  rewrite Hlogin. cbn [fst snd]. split; [reflexivity|exact Hsent].
Defined.

(** A verification answered with the text null: [login] raises and the
    token abc stays held. *)
Lemma login_null_verification_raises_witness :
  (exists message,
     fst (login (JStr "a@b.c") (JStr "x") null_verification_world)
     = Throw message)
  /\ authToken
       (snd (login (JStr "a@b.c") (JStr "x") null_verification_world))
     = JStr "abc".
Proof.
  exact (@login_null_verification_raises widerRuntime (JStr "a@b.c")
           (JStr "x") null_verification_world _ _
           (JObj [("success", JBool true); ("role", JStr "admin");
                  ("token", JStr "abc")])
           eq_refl eq_refl eq_refl eq_refl).
Defined.

(** The customers answered as [{data: [{id: 1}]}]: one record, in the
    contract. *)
Lemma getCustomers_records_witness :
  exists records,
    JArr [JObj [("customerId", JStr "1");
                ("customerName", JStr "Unknown Customer");
                ("email", JStr ""); ("address", JStr "");
                ("telephone", JStr ""); ("complianceValidUntil", JNull);
                ("maps", JArr [])]] = JArr records
    /\ Forall customer_record records.
Proof.
  exact (@getCustomers_records widerRuntime (answering 200 body_data_list) _
           _ eq_refl).
Defined.

(** The customers answered as [[null]]: [getCustomers] raises. *)
Lemma getCustomers_null_element_witness :
  exists message,
    getCustomers (answering 200 body_null_list) =
    (Throw message,
     snd (request "GET" "/customers" JNull (answering 200 body_null_list))).
Proof.
  refine (@getCustomers_null_element widerRuntime
            (answering 200 body_null_list) _ [JNull] eq_refl _).
  constructor. reflexivity.
Defined.

(** The total-count endpoint is missing: the failure envelope with count
    0, after one request. *)
Lemma total_requests_single_call_witness :
  fst (getTotalRequestsToday not_defined
         (answering 404 "Cannot GET /api/customer-requests/today-total-count"))
  = Ok (JObj [("success", JBool false); ("count", zero);
              ("error",
               JStr "getTodayCustomerRequestsCount is not defined")])
  /\ length
       (sent (snd (getTotalRequestsToday not_defined
                     (answering 404
                        "Cannot GET /api/customer-requests/today-total-count"))))
     = 1.
Proof.
  destruct (@total_requests_single_call widerRuntime not_defined
              (answering 404
                 "Cannot GET /api/customer-requests/today-total-count")
              _ (http_failure 404 JNull) eq_refl)
    as (Hrun & _ & Hsent).
  rewrite Hrun. cbn [fst snd]. split; [reflexivity|exact Hsent].
Defined.

(** With [undefined] as the identifier nothing is sent. *)
Lemma missing_identifier_sends_nothing_witness :
  getCustomerVisits JUndefined (answering 200 body_success) =
    (Ok (JArr []), answering 200 body_success)
  /\ getAppointmentsForCustomer JUndefined (answering 200 body_success) =
     (Ok (JArr []), answering 200 body_success)
  /\ getRevenueByCustomer JUndefined (answering 200 body_success) =
     (Ok (JObj [("total_revenue", zero); ("appointment_count", zero)]),
      answering 200 body_success)
  /\ getVisitByAppointmentId JUndefined (answering 200 body_success) =
     (Ok (JObj [("success", JBool false); ("visitId", JNull)]),
      answering 200 body_success).
Proof.
  exact (@missing_identifier_sends_nothing widerRuntime JUndefined
           (answering 200 body_success) eq_refl).
Defined.

(** The appointments answered as [{appointments: none}]: the text comes
    back in place of a list. *)
Lemma getAppointmentsForCustomer_unchecked_witness :
  fst (getAppointmentsForCustomer (JStr "c1")
         (answering 200 body_appointments_text)) = Ok (JStr "none").
Proof.
  destruct (@getAppointmentsForCustomer_unchecked widerRuntime (JStr "c1")
              (JObj [("appointments", JStr "none")])
              (answering 200 body_appointments_text) _ eq_refl eq_refl)
    as (v & Hrun & Hvalue & _).
  rewrite Hrun. cbn [fst]. now rewrite (Hvalue eq_refl eq_refl).
Defined.

(** An update of the appointment a1: the PUT goes to /appointments/a1
    with the status and the visit, without the id. *)
Lemma updateAppointment_object_witness :
  exists body,
    updateAppointment (JObj example_appointment) JUndefined
      (answering 200 body_success) =
    request "PUT" "/appointments/a1" (JObj body) (answering 200 body_success)
    /\ prop (JObj body) "id" = JUndefined
    /\ (forall k, k <> "id" ->
        prop (JObj body) k = prop (JObj example_appointment) k).
Proof.
  exact (@updateAppointment_object widerRuntime example_appointment
           JUndefined (answering 200 body_success) eq_refl).
Defined.

(** The same update in its two forms. *)
Lemma updateAppointment_forms_agree_witness :
  updateAppointment
    (JObj [("id", JStr "a1"); ("status", JStr "completed")]) JUndefined
    (answering 200 body_success) =
  updateAppointment (JStr "a1") (JObj [("status", JStr "completed")])
    (answering 200 body_success).
Proof.
  refine (@updateAppointment_forms_agree widerRuntime "a1"
            [("status", JStr "completed")] (answering 200 body_success)
            _ eq_refl).
  discriminate.
Defined.

(** A service with a chemical given by name, one given as an object and a
    [null]: two chemicals are sent. *)
Lemma logService_body_witness :
  exists rq body chemicals,
    sent (snd (logService example_service (answering 200 body_success))) =
    ([] ++ [rq])%list
    /\ rq_method rq = "POST"
    /\ rq_url rq = API_BASE_URL ++ "/log-service"
    /\ rq_body rq = Some body
    /\ prop body "chemicalsUsed" = JArr chemicals
    /\ Forall chemical_record chemicals
    /\ length chemicals <= 3
    /\ Forall (fun k => defaulted (prop (JObj example_service) k) JNull
                          (prop body k))
         ["insecticideDetails"; "otherPestName"; "disinfection_details";
          "work_type"]
    /\ (forall k,
          k <> "chemicalsUsed" -> k <> "insecticideDetails" ->
          k <> "otherPestName" -> k <> "disinfection_details" ->
          k <> "work_type" ->
          prop body k = prop (JObj example_service) k).
Proof.
  exact (@logService_body widerRuntime example_service
           [JStr "Permethrin";
            JObj [("chemicalName", JStr "Fipronil"); ("volumeMl", JStr "20")];
            JNull]
           (answering 200 body_success) eq_refl).
Defined.

(** A visit summary with no station data: totals of zero, and the flag
    that tells it from a station log. *)
Lemma log_payloads_differ_witness :
  exists rq body,
    sent (snd (logVisitSummary (JObj example_visit)
                 (answering 200 body_success))) = ([] ++ [rq])%list
    /\ rq_method rq = "POST"
    /\ rq_url rq = API_BASE_URL ++ "/log"
    /\ rq_body rq = Some body
    /\ prop body "isVisitSummary" = JBool true
    /\ prop body "action" = JUndefined
    /\ truthy (prop body "workType") = true
    /\ defaulted JUndefined zero (prop body "totalStations")
    /\ defaulted JUndefined zero (prop body "loggedStations")
    /\ prop (fallbackData (stationData example_station)) "isVisitSummary" =
       JBool false
    /\ prop (fallbackData (stationData example_station)) "action" =
       JStr "station-log".
Proof.
  exact (@log_payloads_differ widerRuntime (JObj example_visit)
           example_station (answering 200 body_success) eq_refl).
Defined.

(** The complete-visit endpoint answers with a visit identifier, a
    property named 7 and no [success]: the object returned lists 7 first,
    then [success], then [visitId]. *)
Lemma logCompleteVisit_first_attempt_witness :
  fst (logCompleteVisit iso_of_text example_visit []
         (answering 200 body_indexed_visit)) =
  Ok (JObj [("7", JStr "x"); ("success", JBool true);
            ("visitId", JStr "v9")])
  /\ array_index "7" = Some 7%N
  /\ array_index "visitId" = None
  /\ array_index "07" = None
  /\ array_index "4294967295" = None.
Proof.
  split; [|repeat split].
  exact (f_equal fst
    (proj1
       (proj2
          (proj2 (@logCompleteVisit_first_attempt widerRuntime iso_of_text
                    example_visit [] (answering 200 body_indexed_visit))
             "2025-01-01T10:00:00.000Z" "2025-01-01T10:30:00.000Z"
             (JObj [("7", JStr "x"); ("visitId", JStr "v9")])
             (snd (request "POST" "/visits/log-complete"
                     (JObj [("visitSummary", JObj example_visit);
                            ("stations", JArr []);
                            ("action", JStr "complete-visit")])
                     (answering 200 body_indexed_visit)))
             eq_refl eq_refl eq_refl)
          [("7", JStr "x"); ("visitId", JStr "v9")]
          eq_refl eq_refl eq_refl))).
Defined.

(** The complete-visit endpoint answers 404 with no error text, then /log
    accepts: the visit is saved through the fallback. *)
Lemma logCompleteVisit_fallback_witness :
  includes "404" "Request failed with status 404" = true
  /\ fst (logCompleteVisit iso_of_text example_visit [JNull; JNull]
            complete_visit_world) =
     Ok (JObj [("success", JBool true); ("visitId", JUndefined);
               ("message", JStr "Visit saved via fallback")])
  /\ length (sent (snd (logCompleteVisit iso_of_text example_visit
                          [JNull; JNull] complete_visit_world))) = 2.
Proof.
  destruct (@logCompleteVisit_fallback widerRuntime iso_of_text
              example_visit [JNull; JNull] complete_visit_world _
              (http_failure 404 JNull) _ _ eq_refl eq_refl eq_refl eq_refl)
    as [_ Hfallback].
  destruct (Hfallback eq_refl) as (second & w2 & Hreq & _ & Hrun).
  rewrite request_run in Hreq. injection Hreq as <- <-.
  rewrite Hrun. repeat split.
Defined.

End MoreExamples.
